(** * GPflow example notebooks: monitor-tensorboard and natural gradients

    The repository's own code is two Jupyter notebooks.  This development
    embeds

    - the functions and classes the notebooks define (state passing over the
      parameters of a model, the prediction minibatches of the custom
      TensorBoard task), with the numerical operations of the library kept
      abstract, and
    - the source of the code cells as a syntax tree, for the properties that
      are about what the notebooks contain and in which order they run it. *)

From Stdlib Require Import ZArith List String Ascii Lia Bool.
From stdpp Require Import base numbers list gmap strings pretty.
Import ListNotations.

Local Open Scope Z_scope.

#[local] Set Warnings "-register-all".

(** ** Python values the notebooks compute with *)

Module Py.

(** [len(x)] of a sequence or of the first axis of an array. *)
Definition len {A : Type} (l : list A) : Z := Z.of_nat (length l).

(** [a // b] on Python ints is floor division, as [Z.div] is. *)
Definition floordiv (a b : Z) : Z := a / b.

(** [range(n)]: [0, 1, ..., n-1], empty when [n <= 0]. *)
Definition range (n : Z) : list Z := map Z.of_nat (seq 0 (Z.to_nat n)).

(** A slice bound is taken modulo the length and clamped to it. *)
Definition norm_index (n i : Z) : Z :=
  if i <? 0 then Z.max 0 (i + n) else Z.min i n.

(** [l[lo:hi]] with step 1. *)
Definition slice {A : Type} (l : list A) (lo hi : Z) : list A :=
  let n := len l in
  let a := norm_index n lo in
  let b := norm_index n hi in
  take (Z.to_nat (b - a)) (drop (Z.to_nat a) l).

(** [np.vstack(blocks)] of blocks that are lists of rows: their rows in
    order; numpy raises [ValueError] on an empty sequence of blocks. *)
Definition vstack {A : Type} (blocks : list (list A)) : option (list A) :=
  match blocks with
  | [] => None
  | _ => Some (concat blocks)
  end.

End Py.

(** ** monitor-tensorboard.ipynb: [CustomTensorBoardTask] *)

Module Monitor.

(** TensorFlow, which the notebook calls: a tensor of the graph is identified
    by the number of its node. *)
Definition tensor := nat.

(** A merged summary is the list of its tagged tensors. *)
Definition summary := list (string * tensor).

Section CustomTask.

(** Rows of the feature matrix, rows of a prediction or target matrix,
    floats, the model and the event-file writer of the library, and the
    names a TensorFlow graph has in use. *)
Context {Feat Pred F Model Writer Names : Type}.

(** TensorFlow's [Graph.unique_name]: the name an operation gets in the
    graph, which is the name asked for unless that is in use, and the names
    in use afterwards. *)
Variable unique_name : string -> Names -> string * Names.

(** The graph hands out fresh nodes and unique names. *)
Record graph := { next_node : nat; names : Names }.

Definition new_op (name : string) (g : graph) : string * tensor * graph :=
  let '(unique, ns) := unique_name name (names g) in
  (unique, next_node g, {| next_node := S (next_node g); names := ns |}).

(** [tf.placeholder(dtype, shape=())]. *)
Definition tf_placeholder (g : graph) : tensor * graph :=
  let '(_, t, g') := new_op "Placeholder" g in (t, g').

(** [tf.summary.scalar(name, t)]: the tag of the summary is the unique name
    of its operation. *)
Definition tf_summary_scalar (name : string) (t : tensor) (g : graph)
    : summary * graph :=
  let '(tag, _, g') := new_op name g in ([(tag, t)], g').

(** [tf.summary.merge(summaries)]. *)
Definition tf_summary_merge (ss : list summary) (g : graph) : summary * graph :=
  let '(_, _, g') := new_op "Merge" g in (concat ss, g').

(** [model.predict_y(X)] returns the pair (mean, variance). *)
Variable predict_y : Model -> list Feat -> list Pred * list Pred.

(** numpy arithmetic: the difference of two rows, the power and the mean of
    an array, the power of a float. *)
Variable row_sub : Pred -> Pred -> Pred.
Variable np_pow : list Pred -> F -> list Pred.
Variable np_mean : list Pred -> F.
Variable f_pow : F -> F -> F.
Variables (f_two f_half f_zero : F).

(** [a - b] on arrays of rows: row by row when the row counts agree, an
    array of one row is broadcast, and numpy raises [ValueError] on any
    other pair of row counts. *)
Definition np_sub (a b : list Pred) : option (list Pred) :=
  if decide (length a = length b) then Some (zip_with row_sub a b)
  else match a, b with
       | [x], _ => Some (map (row_sub x) b)
       | _, [y] => Some (map (fun x => row_sub x y) a)
       | _, _ => None
       end.

(** The names [Xt] and [Yt] of the notebook's global scope. *)
Record globals := { g_Xt : list Feat; g_Yt : list Pred }.

Record MonitorContext := { global_step : Z }.

Record CustomTensorBoardTask := {
  file_writer : Writer;
  model : Model;
  Xt : list Feat;
  Yt : list Pred;
  _full_test_err : tensor;
  _full_test_nlpp : tensor;
  _summary : summary
}.

(** [__init__(self, file_writer, model, Xt, Yt)]. *)
Definition init (fw : Writer) (m : Model) (xt : list Feat) (yt : list Pred)
    (g : graph) : CustomTensorBoardTask * graph :=
  let '(err, g1) := tf_placeholder g in
  let '(nlpp, g2) := tf_placeholder g1 in
  let '(s_err, g3) := tf_summary_scalar "test_rmse" err g2 in
  let '(s_nlpp, g4) := tf_summary_scalar "test_nlpp" nlpp g3 in
  let '(merged, g5) := tf_summary_merge [s_err; s_nlpp] g4 in
  ({| file_writer := fw; model := m; Xt := xt; Yt := yt;
      _full_test_err := err; _full_test_nlpp := nlpp;
      _summary := merged |},
   g5).

(** What one evaluation of the summary sends to the event file. *)
Record event := {
  ev_writer : Writer;
  ev_step : Z;
  ev_values : list (string * F)
}.

Definition feed_lookup (feed : list (tensor * F)) (t : tensor) : option F :=
  snd <$> List.find (fun p => Nat.eqb (fst p) t) feed.

(** Modelled from the spec: [_eval_summary(context, feed_dict)] is a method
    of the library's [BaseTensorBoardTask] (a monitor task with a file
    writer), inherited by the notebook's class and not part of the notebook.
    The session evaluates [self._summary] under the feed and the writer
    records the result at the global step; a placeholder that is not fed is
    an error. *)
Definition _eval_summary (self : CustomTensorBoardTask) (ctx : MonitorContext)
    (feed : list (tensor * F)) : option event :=
  vals ← mapM (fun '(tag, t) => pair tag <$> feed_lookup feed t) (_summary self);
  Some {| ev_writer := file_writer self; ev_step := global_step ctx;
          ev_values := vals |}.

Definition minibatch_size : Z := 100.

(** The number of prediction minibatches, [-(-len(Xt) // minibatch_size)]. *)
Definition num_minibatches (xt : list Feat) : Z :=
  - Py.floordiv (- Py.len xt) minibatch_size.

(** [Xt[mb * minibatch_size:(mb + 1) * minibatch_size, :]]. *)
Definition minibatch (xt : list Feat) (mb : Z) : list Feat :=
  Py.slice xt (mb * minibatch_size) ((mb + 1) * minibatch_size).

(** The list comprehension under [np.vstack]. *)
Definition pred_blocks (glb : globals) (self : CustomTensorBoardTask)
    : list (list Pred) :=
  map (fun mb => fst (predict_y (model self) (minibatch (g_Xt glb) mb)))
      (Py.range (num_minibatches (g_Xt glb))).

Definition preds (glb : globals) (self : CustomTensorBoardTask)
    : option (list Pred) :=
  Py.vstack (pred_blocks glb self).

(** [np.mean((Yt - preds) ** 2.0) ** 0.5]. *)
Definition test_err (glb : globals) (p : list Pred) : option F :=
  d ← np_sub (g_Yt glb) p;
  Some (f_pow (np_mean (np_pow d f_two)) f_half).

(** [run(self, context)]: [Xt] and [Yt] are the global names, not the
    attributes of [self]. *)
Definition run (glb : globals) (self : CustomTensorBoardTask)
    (ctx : MonitorContext) : option event :=
  p ← preds glb self;
  e ← test_err glb p;
  _eval_summary self ctx
    [(_full_test_err self, e); (_full_test_nlpp self, f_zero)].



End CustomTask.

Section Restore.

Context {Session : Type}.

(** [os.path.isdir] on the file system as it is when the cell runs, and the
    library's [mon.restore_session]. *)
Variable isdir : string -> bool.
Variable restore_session : Session -> string -> Session.

(** Cell 8: [if os.path.isdir('./monitor-saves'):
    mon.restore_session(session, './monitor-saves')]. *)
Definition restore_if_saved (session : Session) : Session :=
  if isdir "./monitor-saves"
  then restore_session session "./monitor-saves"
  else session.

End Restore.

Arguments graph : clear implicits.
Arguments globals : clear implicits.
Arguments CustomTensorBoardTask : clear implicits.
Arguments event : clear implicits.

End Monitor.

(** ** The natural-gradients notebook: [PrintAction], [run_adam],
       [run_nat_grads_with_adam] *)

Module NatGrads.

(** The parameters of a variational model: [model.q_mu], [model.q_sqrt], and
    the hyperparameters of kernel and likelihood by name. *)
Inductive pref : Type :=
| Q_mu
| Q_sqrt
| Hyper (name : string).

(** [XiSqrtMeanVar()], the one transform the notebook passes. *)
Inductive XiTransform : Type := XiSqrtMeanVar.

(** [PrintAction(model, text)]: the two attributes [__init__] stores. *)
Record PrintAction := {
  model : string;
  text : string
}.

Section Optimisers.

(** Array values, floats, and the slots Adam keeps between its steps. *)
Context {V F S : Type}.

(** Modelled from the spec: the parameter objects of the library's models,
    which the notebook reaches as [model.q_mu] and [model.q_sqrt] and does
    not define: the value of the parameter's variable in the session, the
    value the Python object holds since the last [anchor], and the trainable
    flag. *)
Record Param := {
  var_value : V;
  anchored : V;
  trainable : bool
}.

(** Modelled from the spec: a model object of the library with variational
    parameters (VGP, SVGP). *)
Record Model := {
  q_mu : Param;
  q_sqrt : Param;
  hyper : gmap string Param
}.

Definition set_flag (b : bool) (p : Param) : Param :=
  {| var_value := var_value p; anchored := anchored p; trainable := b |}.

Definition assign (v : V) (p : Param) : Param :=
  {| var_value := v; anchored := anchored p; trainable := trainable p |}.

Definition anchor_param (p : Param) : Param :=
  {| var_value := var_value p; anchored := var_value p;
     trainable := trainable p |}.

Definition update (r : pref) (f : Param -> Param) (m : Model) : Model :=
  match r with
  | Q_mu => {| q_mu := f (q_mu m); q_sqrt := q_sqrt m; hyper := hyper m |}
  | Q_sqrt => {| q_mu := q_mu m; q_sqrt := f (q_sqrt m); hyper := hyper m |}
  | Hyper n => {| q_mu := q_mu m; q_sqrt := q_sqrt m;
                  hyper := alter f n (hyper m) |}
  end.

(** Modelled from the spec: [param.set_trainable(b)] of the library sets the
    flag of that parameter. *)
Definition set_trainable (r : pref) (b : bool) (m : Model) : Model :=
  update r (set_flag b) m.

(** The trainable flags of the two variational parameters. *)
Definition variational_flags (m : Model) : bool * bool :=
  (trainable (q_mu m), trainable (q_sqrt m)).

(** Modelled from the spec: [model.trainable_tensors] of the library, the
    variables of the parameters that are trainable now. *)
Definition trainable_tensors (m : Model) : list pref :=
  (if trainable (q_mu m) then [Q_mu] else []) ++
  (if trainable (q_sqrt m) then [Q_sqrt] else []) ++
  map Hyper (map fst (map_to_list (filter (fun kv => trainable (snd kv) = true)
                                          (hyper m)))).

Definition anchor_if_trainable (p : Param) : Param :=
  if trainable p then anchor_param p else p.

(** Modelled from the spec: [model.anchor(session)] of the library; every
    trainable parameter takes the value its variable has in the session,
    and the library passes over the parameters that are not trainable. *)
Definition anchor (m : Model) : Model :=
  {| q_mu := anchor_if_trainable (q_mu m);
     q_sqrt := anchor_if_trainable (q_sqrt m);
     hyper := anchor_if_trainable <$> hyper m |}.

(** The numerical steps of the library's optimisers, the evaluation of a
    model's likelihood tensor in the session, and the formatting of a float
    to four decimals. *)
Variable adam_value : F -> S -> Model -> pref -> V.
Variable adam_slots : F -> S -> Model -> list pref -> S.
Variable natgrad_values : F -> Model -> pref * pref * option XiTransform -> V * V.
Variable likelihood_tensor : string -> Model -> F.
Variable format_4 : F -> string.

(** Modelled from the spec: the actions a loop of the library runs; here the
    optimize actions of the library's two optimisers, and the notebook's
    own [PrintAction]. *)
Inductive Action : Type :=
| AdamAction (lr : F) (vars : list pref)
| NatGradAction (gamma : F) (var_list : list (pref * pref * option XiTransform))
| PrintStep (a : PrintAction).

(** What the actions of a loop act on: the model in its session, the slots
    of Adam, and the lines printed so far. *)
Record state := {
  mdl : Model;
  slots : S;
  stdout : list string
}.

Record context := { iteration : Z }.

(** Modelled from the spec: [AdamOptimizer(lr).make_optimize_action(model)]
    of the library.  The action minimises over the variables that are
    trainable when it is built, which is why the notebook switches the flags
    off before it builds the action; with no trainable variable the library
    raises [ValueError] (no variables to optimize) and builds nothing. *)
Definition Adam_make_optimize_action (lr : F) (m : Model) : option Action :=
  match trainable_tensors m with
  | [] => None
  | vars => Some (AdamAction lr vars)
  end.

(** Modelled from the spec:
    [NatGradOptimizer(gamma).make_optimize_action(model, var_list=var_list)]
    of the library; the action updates the pairs of [var_list]. *)
Definition NatGrad_make_optimize_action (gamma : F) (m : Model)
    (var_list : list (pref * pref * option XiTransform)) : Action :=
  NatGradAction gamma var_list.

(** Modelled from the spec: one step of the library's Adam action assigns a
    new value to each of its variables, all computed at the model as it is
    before the step. *)
Definition adam_step (lr : F) (vars : list pref) (st : state) : state :=
  {| mdl := foldr (fun r m => update r (assign (adam_value lr (slots st) (mdl st) r)) m)
                  (mdl st) vars;
     slots := adam_slots lr (slots st) (mdl st) vars;
     stdout := stdout st |}.

(** Modelled from the spec: one step of the library's natural-gradient
    action assigns the two variables of each entry of its [var_list]. *)
Definition natgrad_step (gamma : F)
    (var_list : list (pref * pref * option XiTransform)) (st : state) : state :=
  {| mdl := foldr (fun e m =>
                     let '(mu, sq, _) := e in
                     let '(vmu, vsq) := natgrad_values gamma (mdl st) e in
                     update sq (assign vsq) (update mu (assign vmu) m))
                  (mdl st) var_list;
     slots := slots st;
     stdout := stdout st |}.

(** [PrintAction.run(self, ctx)]. *)
Definition PrintAction_run (self : PrintAction) (ctx : context) (st : state)
    : state :=
  let likelihood := likelihood_tensor (model self) (mdl st) in
  {| mdl := mdl st;
     slots := slots st;
     stdout := stdout st ++
       [(text self ++ ": iteration " ++ pretty (iteration ctx)
         ++ " likelihood " ++ format_4 likelihood)%string] |}.

Definition run_action (a : Action) (ctx : context) (st : state) : state :=
  match a with
  | AdamAction lr vars => adam_step lr vars st
  | NatGradAction gamma vl => natgrad_step gamma vl st
  | PrintStep pa => PrintAction_run pa ctx st
  end.

(** Modelled from the spec: [Loop(actions, stop=iterations)()], the training
    loop of the library; the actions in order, once per iteration
    [0, 1, ..., iterations - 1]. *)
Definition Loop (actions : list Action) (stop : Z) (st : state) : state :=
  foldl (fun st i =>
           foldl (fun st a => run_action a {| iteration := i |} st) st actions)
        st (Py.range stop).

Definition anchor_state (st : state) : state :=
  {| mdl := anchor (mdl st); slots := slots st; stdout := stdout st |}.

Definition with_model (st : state) (m : Model) : state :=
  {| mdl := m; slots := slots st; stdout := stdout st |}.

(** How a call ends: it returns, or the [ValueError] of the library leaves
    it; either way with the model as the call has left it. *)
Inductive outcome : Type :=
| Returned (st : state)
| Raised (st : state).

Definition final (o : outcome) : state :=
  match o with Returned st | Raised st => st end.

(** [run_adam(model, lr, iterations, callback=None)]. *)
Definition run_adam (st : state) (lr : F) (iterations : Z)
    (callback : option Action) : outcome :=
  match Adam_make_optimize_action lr (mdl st) with
  | None => Raised st
  | Some adam =>
      let actions := match callback with
                     | None => [adam]
                     | Some cb => [adam; cb]
                     end in
      let st := Loop actions iterations st in
      Returned (anchor_state st)
  end.

(** The two [set_trainable(False)] calls of [run_nat_grads_with_adam]. *)
Definition freeze_variational (m : Model) : Model :=
  set_trainable Q_sqrt false (set_trainable Q_mu false m).

(** [run_nat_grads_with_adam(model, lr, gamma, iterations, var_list=None,
    callback=None)]. *)
Definition run_nat_grads_with_adam (st : state) (lr gamma : F)
    (iterations : Z)
    (var_list : option (list (pref * pref * option XiTransform)))
    (callback : option Action) : outcome :=
  let var_list := match var_list with
                  | None => [(Q_mu, Q_sqrt, None)]
                  | Some vl => vl
                  end in
  let m := freeze_variational (mdl st) in
  let st := with_model st m in
  match Adam_make_optimize_action lr m with
  | None => Raised st
  | Some adam =>
      let natgrad := NatGrad_make_optimize_action gamma m var_list in
      let actions := [adam; natgrad] in
      let actions := match callback with
                     | None => actions
                     | Some cb => actions ++ [cb]
                     end in
      let st := Loop actions iterations st in
      Returned (anchor_state st)
  end.

End Optimisers.

Arguments Param : clear implicits.
Arguments Model : clear implicits.
Arguments Action : clear implicits.
Arguments state : clear implicits.
Arguments outcome : clear implicits.

End NatGrads.

(** ** Reading a parameter of a model *)

Module NatGradsAux.

Import NatGrads.

#[global] Instance pref_eq_dec : EqDecision pref.
Proof. solve_decision. Defined.

Section Lookup.

Context {V : Type}.

(** The parameter a reference stands for: [model.q_mu], [model.q_sqrt], or
    the hyperparameter of that name if the model has one. *)
Definition lookup_param (r : pref) (m : Model V) : option (Param V) :=
  match r with
  | Q_mu => Some (q_mu m)
  | Q_sqrt => Some (q_sqrt m)
  | Hyper n => hyper m !! n
  end.

End Lookup.

(** The parameters a [var_list] names. *)
Definition targets (var_list : list (pref * pref * option XiTransform))
    : list pref :=
  flat_map (fun e => [fst (fst e); snd (fst e)]) var_list.

End NatGradsAux.

(** ** A small model to run [run_nat_grads_with_adam] on *)

Module NatGradsExample.

Import NatGrads.
Local Open Scope string_scope.

(** A model with one hyperparameter; Adam adds its learning rate to every
    variable it minimises over, and the natural-gradient step sets the
    variational parameters to [gamma] and [2 * gamma]. *)
Definition example_model : Model Z :=
  {| q_mu := {| var_value := 0; anchored := 0; trainable := true |};
     q_sqrt := {| var_value := 0; anchored := 0; trainable := true |};
     hyper := {[ "lengthscales" :=
                   {| var_value := 5; anchored := 5; trainable := true |} ]} |}.

Definition example_value (r : pref) (m : Model Z) : Z :=
  match r with
  | Q_mu => var_value (q_mu m)
  | Q_sqrt => var_value (q_sqrt m)
  | Hyper n => default 0 (var_value <$> hyper m !! n)
  end.

Definition example_run (var_list : option (list (pref * pref * option XiTransform)))
    : state Z unit :=
  final
    (run_nat_grads_with_adam
       (fun lr _ m r => example_value r m + lr) (fun _ s _ _ => s)
       (fun gamma _ _ => (gamma, 2 * gamma)) (fun _ _ => 0) (fun _ => "0.0000")
       {| mdl := example_model; slots := tt; stdout := [] |}
       1 10 3 var_list
       (Some (PrintStep {| model := "vgp"; text := "VGP" |}))).

End NatGradsExample.

(** ** An instance of TensorFlow's unique names *)

Module Tf.

Local Open Scope string_scope.

(** The first [j >= i] for which [base_j] is not in use. *)
Fixpoint first_unused (fuel : nat) (names : gmap string nat) (base : string)
    (i : nat) : nat :=
  match fuel with
  | O => i
  | S fuel =>
      match names !! (base ++ "_" ++ pretty i) with
      | Some _ => first_unused fuel names base (S i)
      | None => i
      end
  end.

(** [Graph.unique_name(name)] on the names as they are given (TensorFlow
    compares them in lower case): the name itself the first time, and
    [name_1], [name_2], ... after that, skipping those in use. *)
Definition unique_name (name : string) (names : gmap string nat)
    : string * gmap string nat :=
  let i := default 0%nat (names !! name) in
  let names := <[name := S i]> names in
  match i with
  | O => (name, names)
  | S _ =>
      let j := first_unused (size names) names name i in
      let unique := name ++ "_" ++ pretty j in
      (unique, <[unique := 1%nat]> names)
  end.

Definition empty_graph : Monitor.graph (gmap string nat) :=
  {| Monitor.next_node := 0; Monitor.names := ∅ |}.

End Tf.

(** ** Instances to run the training functions and the custom task on *)

Module Instances.

Import NatGrads NatGradsAux NatGradsExample.
Local Open Scope string_scope.

(** Adam adds its learning rate, the natural-gradient step sets the pair to
    [gamma] and [2 * gamma]; the likelihood is the value of [q_mu]. *)
Definition adam_value (lr : Z) (_ : unit) (m : Model Z) (r : pref) : Z :=
  example_value r m + lr.
Definition adam_slots (_ : Z) (s : unit) (_ : Model Z) (_ : list pref) : unit := s.
Definition natgrad_values (gamma : Z) (m : Model Z)
    (_ : pref * pref * option XiTransform) : Z * Z :=
  (var_value (q_mu m) + gamma, 2 * gamma).
Definition likelihood_tensor (_ : string) (m : Model Z) : Z :=
  var_value (q_mu m).
Definition format_4 (x : Z) : string := pretty x.

(** A model with a trainable and a fixed hyperparameter, and one with
    nothing trainable. *)
Definition model_with_fixed_variance : Model Z :=
  {| q_mu := {| var_value := 0; anchored := 0; trainable := true |};
     q_sqrt := {| var_value := 0; anchored := 0; trainable := true |};
     hyper := {[ "lengthscales" :=
                   {| var_value := 5; anchored := 5; trainable := true |};
                 "variance" :=
                   {| var_value := 1; anchored := 1; trainable := false |} ]} |}.

Definition model_with_nothing_trainable : Model Z :=
  {| q_mu := {| var_value := 0; anchored := 0; trainable := false |};
     q_sqrt := {| var_value := 0; anchored := 0; trainable := false |};
     hyper := {[ "variance" :=
                   {| var_value := 1; anchored := 1; trainable := false |} ]} |}.

Definition start : state Z unit :=
  {| mdl := model_with_fixed_variance; slots := tt; stdout := [] |}.

Definition fixed : state Z unit :=
  {| mdl := model_with_nothing_trainable; slots := tt; stdout := [] |}.

Definition run_adam_on (st : state Z unit) (iterations : Z)
    (callback : option (Action Z)) : outcome Z unit :=
  run_adam adam_value adam_slots natgrad_values likelihood_tensor format_4
           st 1 iterations callback.

Definition run_nat_grads_on (st : state Z unit) (iterations : Z)
    (var_list : option (list (pref * pref * option XiTransform)))
    (callback : option (Action Z)) : outcome Z unit :=
  run_nat_grads_with_adam adam_value adam_slots natgrad_values
                          likelihood_tensor format_4
                          st 1 10 iterations var_list callback.

(** A task on a test array of 250 rows, with a model that returns its
    input as mean and variance, in a fresh graph; and a second task built in
    the graph the first has left. *)
Definition predict_y (_ : unit) (x : list Z) : list Z * list Z := (x, x).

Definition test_globals : Monitor.globals Z Z :=
  {| Monitor.g_Xt := Py.range 250; Monitor.g_Yt := Py.range 250 |}.

Definition first_task : Monitor.CustomTensorBoardTask Z Z unit unit
                        * Monitor.graph (gmap string nat) :=
  Monitor.init Tf.unique_name tt tt [] [] Tf.empty_graph.

Definition second_task : Monitor.CustomTensorBoardTask Z Z unit unit
                         * Monitor.graph (gmap string nat) :=
  Monitor.init Tf.unique_name tt tt [7] [7] (snd first_task).

Definition run_on (glb : Monitor.globals Z Z)
    (self : Monitor.CustomTensorBoardTask Z Z unit unit)
    (ctx : Monitor.MonitorContext) : option (Monitor.event Z unit) :=
  Monitor.run predict_y Z.sub (fun p e => map (fun x => x ^ e) p)
              (fun p => foldr Z.add 0 p) Z.pow 2 1 0 glb self ctx.

End Instances.

(** ** The source of the code cells

    The syntax follows Python's [ast] module, restricted to the node kinds
    that occur in the notebooks, and with [Try], [Raise] and the [!] lines
    of IPython ([Shell]) so that their absence is a property of the cells
    and not of the type.  Comments,
    annotations and line continuations are not represented. *)

Module Syntax.

Inductive operator : Type := Add | Sub | Mult | FloorDiv | Pow | Mod.

Inductive constant : Type := PyNone | PyTrue | PyFalse.

Inductive expr : Type :=
| Name (id : string)
| Attribute (value : expr) (attr : string)
| Call (func : expr) (args : list expr) (keywords : list (string * expr))
| Num (n : Z)
| Float (literal : string)
| Str (s : string)
| NameConstant (c : constant)
| BinOp (left : expr) (op : operator) (right : expr)
| USub (operand : expr)
| Is (left right : expr)
| IfExp (test body orelse : expr)
| PyList (elts : list expr)
| PyTuple (elts : list expr)
| PyDict (items : list (expr * expr))
| Subscript (value index : expr)
| Slice (lower upper : option expr)
| Starred (value : expr)
| ListComp (elt : expr) (target : string) (iter : expr).

Inductive stmt : Type :=
| Import (name : string) (asname : option string)
| ImportFrom (module : string) (names : list (string * option string))
| Magic (line : string)
| Shell (command : string)
| Assign (target value : expr)
| Expr (value : expr)
| If (test : expr) (body orelse : list stmt)
| For (target iter : expr) (body : list stmt)
| With (item : expr) (asname : option string) (body : list stmt)
| FunctionDef (name : string) (args : list (string * option expr))
              (body : list stmt)
| ClassDef (name : string) (bases : list expr) (body : list stmt)
| Return (value : expr)
| Try (body handlers finalbody : list stmt)
| Raise (exc : expr).

(** A code cell: its number, its statements, whether the notebook records a
    displayed value ([execute_result]) for it, and whether it records text
    on the standard streams. *)
Record cell := {
  execution_count : nat;
  source : list stmt;
  execute_result : bool;
  stream : bool
}.

Definition opt_list {A : Type} (o : option A) : list A :=
  match o with Some a => [a] | None => [] end.

(** Every sub-expression of an expression, operands before the node that
    uses them (the order in which Python evaluates them). *)
Fixpoint sub (e : expr) : list expr :=
  match e with
  | Name _ | Num _ | Float _ | Str _ | NameConstant _ => [e]
  | Attribute v _ => sub v ++ [e]
  | Call f args kws =>
      sub f ++ flat_map sub args ++ flat_map (fun kw => sub (snd kw)) kws ++ [e]
  | BinOp l _ r => sub l ++ sub r ++ [e]
  | USub v => sub v ++ [e]
  | Is l r => sub l ++ sub r ++ [e]
  | IfExp t b o => sub t ++ sub b ++ sub o ++ [e]
  | PyList es | PyTuple es => flat_map sub es ++ [e]
  | PyDict items =>
      flat_map (fun kv => sub (fst kv) ++ sub (snd kv)) items ++ [e]
  | Subscript v i => sub v ++ sub i ++ [e]
  | Slice lo hi =>
      match lo with Some x => sub x | None => [] end ++
      match hi with Some x => sub x | None => [] end ++ [e]
  | Starred v => sub v ++ [e]
  | ListComp elt _ iter => sub iter ++ sub elt ++ [e]
  end.

(** The expressions a statement evaluates itself, the bodies of compound
    statements left out. *)
Definition own_exprs (s : stmt) : list expr :=
  match s with
  | Import _ _ | ImportFrom _ _ | Magic _ | Shell _ => []
  | Assign t v => [v; t]
  | Expr v => [v]
  | If t _ _ => [t]
  | For t i _ => [i; t]
  | With i _ _ => [i]
  | FunctionDef _ args _ => flat_map (fun a => opt_list (snd a)) args
  | ClassDef _ bases _ => bases
  | Return v => [v]
  | Try _ _ _ => []
  | Raise e => [e]
  end.

(** Every statement, those inside function and class bodies included. *)
Fixpoint nested (s : stmt) : list stmt :=
  s :: match s with
       | If _ b o => flat_map nested b ++ flat_map nested o
       | For _ _ b | With _ _ b | FunctionDef _ _ b | ClassDef _ _ b =>
           flat_map nested b
       | Try b h f =>
           flat_map nested b ++ flat_map nested h ++ flat_map nested f
       | _ => []
       end.


Definition all_stmts (cells : list cell) : list stmt :=
  flat_map nested (flat_map source cells).

Definition all_exprs (ss : list stmt) : list expr :=
  flat_map sub (flat_map own_exprs ss).

(** Function definitions with the name of the enclosing class, as
    [Class.method]. *)
Definition defs_of (s : stmt) : list (string * list stmt) :=
  match s with
  | FunctionDef f _ body => [(f, body)]
  | ClassDef c _ body =>
      flat_map (fun m => match m with
                         | FunctionDef f _ b => [((c ++ "." ++ f)%string, b)]
                         | _ => []
                         end) body
  | _ => []
  end.

Definition defs (cells : list cell) : list (string * list stmt) :=
  flat_map defs_of (flat_map source cells).

Definition classes (cells : list cell) : list (string * list expr * list stmt) :=
  flat_map (fun s => match s with
                     | ClassDef c bases body => [(c, bases, body)]
                     | _ => []
                     end) (flat_map source cells).

(** The expressions of a function body, nested statements included. *)
Definition body_exprs (body : list stmt) : list expr :=
  all_exprs (flat_map nested body).

(** The dotted name an expression spells, if it is one. *)
Fixpoint dotted (e : expr) : option string :=
  match e with
  | Name x => Some x
  | Attribute v a =>
      match dotted v with
      | Some p => Some (p ++ "." ++ a)%string
      | None => None
      end
  | _ => None
  end.

(** The last component of the name a call goes to. *)
Definition callee (e : expr) : option string :=
  match e with
  | Call (Name x) _ _ => Some x
  | Call (Attribute _ a) _ _ => Some a
  | _ => None
  end.

(** The names the import statements bind, with the module path they stand
    for. *)
Definition import_bindings (s : stmt) : list (string * string) :=
  match s with
  | Import m (Some a) => [(a, m)]
  | Import m None => [(m, m)]
  | ImportFrom m names =>
      map (fun n => (default (fst n) (snd n), (m ++ "." ++ fst n)%string)) names
  | _ => []
  end.

Definition imports (cells : list cell) : list (string * string) :=
  flat_map import_bindings (all_stmts cells).

Definition lookup_name (tbl : list (string * string)) (x : string)
    : option string :=
  snd <$> List.find (fun p => String.eqb (fst p) x) tbl.

(** The library path a dotted expression resolves to through the imports. *)
Fixpoint resolve (tbl : list (string * string)) (e : expr) : option string :=
  match e with
  | Name x => lookup_name tbl x
  | Attribute v a =>
      match resolve tbl v with
      | Some p => Some (p ++ "." ++ a)%string
      | None => None
      end
  | _ => None
  end.

Definition is_call (e : expr) : bool :=
  match e with Call _ _ _ => true | _ => false end.

(** The calls of a list of statements, in evaluation order. *)
Definition calls (ss : list stmt) : list expr :=
  filter (fun e => is_call e = true) (all_exprs ss).

End Syntax.

(** ** The code cells of the two notebooks *)

Module Cells.

Import Syntax.
Local Open Scope string_scope.

(** [root.a.b...] *)
Definition qual (root : string) (path : list string) : expr :=
  fold_left Attribute path (Name root).

(** [f(args)] and [obj.name(args)] without keyword arguments. *)
Definition call (f : expr) (args : list expr) : expr := Call f args [].
Definition method (obj : expr) (name : string) (args : list expr) : expr :=
  Call (Attribute obj name) args [].

Definition code (n : nat) (ss : list stmt) : cell :=
  {| execution_count := n; source := ss;
     execute_result := false; stream := false |}.
Definition code_result (n : nat) (ss : list stmt) : cell :=
  {| execution_count := n; source := ss;
     execute_result := true; stream := false |}.
Definition code_stream (n : nat) (ss : list stmt) : cell :=
  {| execution_count := n; source := ss;
     execute_result := false; stream := true |}.

(** *** doc/source/notebooks/monitor-tensorboard.ipynb *)

Module MonitorNb.

(** [e.with_condition(mon.PeriodicIterationCondition(n)).with_exit_condition(True)] *)
Definition periodic (e : expr) (n : Z) : expr :=
  method
    (method e "with_condition"
       [call (qual "mon" ["PeriodicIterationCondition"]) [Num n]])
    "with_exit_condition" [NameConstant PyTrue].

Definition rand_times_10 : expr :=
  BinOp (call (qual "np" ["random"; "rand"]) [Num 10000; Num 1]) Mult (Num 10).

Definition sin_plus_noise (x : string) : expr :=
  BinOp (call (qual "np" ["sin"]) [Name x]) Add
        (call (qual "np" ["random"; "randn"]) [Starred (qual x ["shape"])]).

Definition cell_1 : cell := code 1 [
  Magic "matplotlib inline";
  Import "itertools" None;
  Import "os" None;
  Assign (Subscript (qual "os" ["environ"]) (Str "CUDA_VISIBLE_DEVICES"))
         (Str EmptyString);
  Import "numpy" (Some "np");
  Import "gpflow" None;
  Import "gpflow.training.monitor" (Some "mon");
  Import "numbers" None;
  Import "matplotlib.pyplot" (Some "plt");
  Import "tensorflow" (Some "tf")
].

Definition cell_2 : cell := code 2 [
  Expr (call (qual "np" ["random"; "seed"]) [Num 0]);
  Assign (Name "X") rand_times_10;
  Assign (Name "Y") (sin_plus_noise "X");
  Assign (Name "Xt") rand_times_10;
  Assign (Name "Yt") (sin_plus_noise "Xt");
  With (call (qual "gpflow" ["defer_build"]) []) None [
    Assign (Name "m")
      (Call (qual "gpflow" ["models"; "SVGP"])
         [Name "X"; Name "Y";
          call (qual "gpflow" ["kernels"; "RBF"]) [Num 1];
          call (qual "gpflow" ["likelihoods"; "Gaussian"]) []]
         [("Z", Subscript (call (qual "np" ["linspace"]) [Num 0; Num 10; Num 5])
                          (PyTuple [Slice None None; NameConstant PyNone]));
          ("minibatch_size", Num 100);
          ("name", Str "SVGP")]);
    Assign (qual "m" ["likelihood"; "variance"]) (Float "0.01")
  ];
  Expr (call (qual "m" ["compile"]) [])
].

Definition cell_3 : cell := code_stream 3 [
  Expr (call (Name "print")
          [BinOp (Str "LML before the optimisation: %f") Mod
                 (call (qual "m" ["compute_log_likelihood"]) [])])
].

Definition cell_4 : cell := code 4 [
  Assign (Name "session") (call (qual "m" ["enquire_session"]) []);
  Assign (Name "global_step")
         (call (qual "mon" ["create_global_step"]) [Name "session"])
].

Definition cell_5 : cell := code 5 [
  Assign (Name "print_task")
    (periodic (method (call (qual "mon" ["PrintTimingsTask"]) [])
                      "with_name" [Str "print"]) 10);
  Assign (Name "sleep_task")
    (method (method (call (qual "mon" ["SleepTask"]) [Float "0.01"])
                    "with_name" [Str "sleep"])
            "with_name" [Str "sleep"]);
  Assign (Name "saver_task")
    (periodic (method (call (qual "mon" ["CheckpointTask"])
                            [Str "./monitor-saves"])
                      "with_name" [Str "saver"]) 10);
  Assign (Name "file_writer")
    (call (qual "mon" ["LogdirWriter"]) [Str "./model-tensorboard"]);
  Assign (Name "model_tboard_task")
    (periodic (method (call (qual "mon" ["ModelToTensorBoardTask"])
                            [Name "file_writer"; Name "m"])
                      "with_name" [Str "model_tboard"]) 10);
  Assign (Name "lml_tboard_task")
    (periodic (method (call (qual "mon" ["LmlToTensorBoardTask"])
                            [Name "file_writer"; Name "m"])
                      "with_name" [Str "lml_tboard"]) 100)
].

Definition placeholder : expr :=
  Call (qual "tf" ["placeholder"]) [qual "gpflow" ["settings"; "tf_float"]]
       [("shape", PyTuple [])].

Definition CustomTensorBoardTask_init : stmt :=
  FunctionDef "__init__"
    [("self", None); ("file_writer", None); ("model", None);
     ("Xt", None); ("Yt", None)]
    [Expr (method (call (Name "super") []) "__init__"
                  [Name "file_writer"; Name "model"]);
     Assign (qual "self" ["Xt"]) (Name "Xt");
     Assign (qual "self" ["Yt"]) (Name "Yt");
     Assign (qual "self" ["_full_test_err"]) placeholder;
     Assign (qual "self" ["_full_test_nlpp"]) placeholder;
     Assign (qual "self" ["_summary"])
       (call (qual "tf" ["summary"; "merge"])
          [PyList [call (qual "tf" ["summary"; "scalar"])
                     [Str "test_rmse"; qual "self" ["_full_test_err"]];
                   call (qual "tf" ["summary"; "scalar"])
                     [Str "test_nlpp"; qual "self" ["_full_test_nlpp"]]]])].

Definition CustomTensorBoardTask_run : stmt :=
  FunctionDef "run"
    [("self", None); ("context", None); ("*args", None); ("**kwargs", None)]
    [Assign (Name "minibatch_size") (Num 100);
     Assign (Name "preds")
       (call (qual "np" ["vstack"])
          [ListComp
             (Subscript
                (call (qual "self" ["model"; "predict_y"])
                   [Subscript (Name "Xt")
                      (PyTuple
                         [Slice
                            (Some (BinOp (Name "mb") Mult (Name "minibatch_size")))
                            (Some (BinOp (BinOp (Name "mb") Add (Num 1)) Mult
                                         (Name "minibatch_size")));
                          Slice None None])])
                (Num 0))
             "mb"
             (call (Name "range")
                [USub (BinOp (USub (call (Name "len") [Name "Xt"])) FloorDiv
                             (Name "minibatch_size"))])]);
     Assign (Name "test_err")
       (BinOp (call (qual "np" ["mean"])
                 [BinOp (BinOp (Name "Yt") Sub (Name "preds")) Pow (Float "2.0")])
              Pow (Float "0.5"));
     Expr (call (qual "self" ["_eval_summary"])
             [Name "context";
              PyDict [(qual "self" ["_full_test_err"], Name "test_err");
                      (qual "self" ["_full_test_nlpp"], Float "0.0")]])].

Definition cell_6 : cell := code 6 [
  ClassDef "CustomTensorBoardTask" [qual "mon" ["BaseTensorBoardTask"]]
    [CustomTensorBoardTask_init; CustomTensorBoardTask_run];
  Assign (Name "custom_tboard_task")
    (periodic (method (call (Name "CustomTensorBoardTask")
                            [Name "file_writer"; Name "m"; Name "Xt"; Name "Yt"])
                      "with_name" [Str "custom_tboard"]) 100)
].

Definition cell_7 : cell := code 7 [
  Assign (Name "monitor_tasks")
    (PyList [Name "print_task"; Name "model_tboard_task";
             Name "lml_tboard_task"; Name "custom_tboard_task";
             Name "saver_task"; Name "sleep_task"]);
  Assign (Name "monitor")
    (call (qual "mon" ["Monitor"])
       [Name "monitor_tasks"; Name "session"; Name "global_step"])
].

Definition cell_8 : cell := code 8 [
  If (call (qual "os" ["path"; "isdir"]) [Str "./monitor-saves"])
     [Expr (call (qual "mon" ["restore_session"])
              [Name "session"; Str "./monitor-saves"])]
     []
].

Definition cell_9 : cell := code_stream 9 [
  Assign (Name "optimiser")
    (call (qual "gpflow" ["train"; "AdamOptimizer"]) [Float "0.01"]);
  With (Call (qual "mon" ["Monitor"])
          [Name "monitor_tasks"; Name "session"; Name "global_step"]
          [("print_summary", NameConstant PyTrue)])
       (Some "monitor")
    [Expr (Call (qual "optimiser" ["minimize"]) [Name "m"]
             [("step_callback", Name "monitor");
              ("maxiter", Num 450);
              ("global_step", Name "global_step")])];
  Expr (call (qual "file_writer" ["close"]) [])
].

Definition cell_10 : cell := code_stream 10 [
  Expr (call (Name "print")
          [BinOp (Str "LML after the optimisation: %f") Mod
                 (call (qual "m" ["compute_log_likelihood"]) [])])
].

Definition cells : list cell :=
  [cell_1; cell_2; cell_3; cell_4; cell_5; cell_6; cell_7; cell_8; cell_9;
   cell_10].

End MonitorNb.

(** *** The natural-gradients notebook (unnamed/part_000) *)

Module NatGradsNb.

Definition plain (names : list string) : list (string * option string) :=
  map (fun n => (n, None)) names.

Definition matern : expr := call (Name "make_matern_kernel") [].
Definition gaussian : expr := call (qual "gpflow" ["likelihoods"; "Gaussian"]) [].
Definition bernoulli : expr := call (qual "gpflow" ["likelihoods"; "Bernoulli"]) [].

(** [NAME.compute_log_likelihood()] *)
Definition compute_log_likelihood (name : string) : expr :=
  call (qual name ["compute_log_likelihood"]) [].

(** [np.average([NAME.compute_log_likelihood() for _ in notebook_range(1000)])] *)
Definition average_likelihood (name : string) : expr :=
  call (qual "np" ["average"])
    [ListComp (compute_log_likelihood name) "_"
              (call (Name "notebook_range") [Num 1000])].

(** [SVGP(X, Y, make_matern_kernel(), gpflow.likelihoods.Gaussian(), Z=Z,
    minibatch_size=50)] *)
Definition svgp_minibatch : expr :=
  Call (Name "SVGP") [Name "X"; Name "Y"; matern; gaussian]
       [("Z", Name "Z"); ("minibatch_size", Num 50)].

Definition uniform (shape : list expr) : expr :=
  Call (qual "np" ["random"; "uniform"]) [] [("size", PyTuple shape)].

Definition PrintAction_class : stmt :=
  ClassDef "PrintAction" [Name "Action"]
    [FunctionDef "__init__" [("self", None); ("model", None); ("text", None)]
       [Assign (qual "self" ["model"]) (Name "model");
        Assign (qual "self" ["text"]) (Name "text")];
     FunctionDef "run" [("self", None); ("ctx", None)]
       [Assign (Name "likelihood")
          (call (qual "ctx" ["session"; "run"])
             [qual "self" ["model"; "likelihood_tensor"]]);
        Expr (call (Name "print")
                [method (Str "{}: iteration {} likelihood {:.4f}") "format"
                   [qual "self" ["text"]; qual "ctx" ["iteration"];
                    Name "likelihood"]])]].

Definition cell_1 : cell := code 1 [
  ImportFrom "matplotlib" [("pyplot", Some "plt")];
  Import "warnings" None;
  Import "numpy" (Some "np");
  Import "tensorflow" (Some "tf");
  Import "gpflow" None;
  ImportFrom "gpflow.test_util" (plain ["notebook_niter"; "notebook_range"]);
  ImportFrom "gpflow.actions" (plain ["Loop"; "Action"]);
  ImportFrom "gpflow.models" (plain ["VGP"; "GPR"; "SGPR"; "SVGP"]);
  ImportFrom "gpflow.training"
    (plain ["NatGradOptimizer"; "AdamOptimizer"; "XiSqrtMeanVar"]);
  Magic "matplotlib inline";
  Magic "precision 4";
  Expr (call (qual "warnings" ["filterwarnings"]) [Str "ignore"]);
  Expr (call (qual "np" ["random"; "seed"]) [Num 0]);
  Assign (PyTuple [Name "N"; Name "D"]) (PyTuple [Num 100; Num 2]);
  Assign (Name "M") (Num 10);
  Assign (Name "X") (uniform [Name "N"; Name "D"]);
  Assign (Name "Y") (call (qual "np" ["sin"]) [BinOp (Num 10) Mult (Name "X")]);
  Assign (Name "Z") (uniform [Name "M"; Name "D"]);
  Assign (Name "learning_rate") (Float "0.01");
  Assign (Name "iterations") (Num 5);
  FunctionDef "make_matern_kernel" []
    [Return (call (qual "gpflow" ["kernels"; "Matern52"]) [Name "D"])];
  PrintAction_class
].

Definition cell_2 : cell := code 2 [
  Assign (Name "vgp") (call (Name "VGP") [Name "X"; Name "Y"; matern; gaussian]);
  Assign (Name "gpr") (call (Name "GPR") [Name "X"; Name "Y"; matern])
].

Definition cell_3 : cell := code_result 3 [Expr (compute_log_likelihood "gpr")].

Definition cell_4 : cell := code_result 4 [Expr (compute_log_likelihood "vgp")].

Definition cell_5 : cell := code_result 5 [
  Expr (Call (Attribute (Call (Name "NatGradOptimizer") [] [("gamma", Float "1.")])
                        "minimize")
          [Name "vgp"]
          [("maxiter", Num 1);
           ("var_list", PyList [PyList [qual "vgp" ["q_mu"]; qual "vgp" ["q_sqrt"]]])]);
  Expr (compute_log_likelihood "vgp")
].

Definition is_none (x : string) : expr := Is (Name x) (NameConstant PyNone).

Definition anchor_model : stmt :=
  Expr (call (qual "model" ["anchor"]) [call (qual "model" ["enquire_session"]) []]).

Definition cell_6 : cell := code 6 [
  FunctionDef "run_adam"
    [("model", None); ("lr", None); ("iterations", None);
     ("callback", Some (NameConstant PyNone))]
    [Assign (Name "adam")
       (method (call (Name "AdamOptimizer") [Name "lr"]) "make_optimize_action"
               [Name "model"]);
     Assign (Name "actions")
       (IfExp (is_none "callback") (PyList [Name "adam"])
              (PyList [Name "adam"; Name "callback"]));
     Assign (Name "loop")
       (call (Call (Name "Loop") [Name "actions"] [("stop", Name "iterations")]) []);
     anchor_model]
].

Definition cell_7 : cell := code 7 [
  FunctionDef "run_nat_grads_with_adam"
    [("model", None); ("lr", None); ("gamma", None); ("iterations", None);
     ("var_list", Some (NameConstant PyNone));
     ("callback", Some (NameConstant PyNone))]
    [If (is_none "var_list")
        [Assign (Name "var_list")
           (PyList [PyTuple [qual "model" ["q_mu"]; qual "model" ["q_sqrt"]]])]
        [];
     Expr (call (qual "model" ["q_mu"; "set_trainable"]) [NameConstant PyFalse]);
     Expr (call (qual "model" ["q_sqrt"; "set_trainable"]) [NameConstant PyFalse]);
     Assign (Name "adam")
       (method (call (Name "AdamOptimizer") [Name "lr"]) "make_optimize_action"
               [Name "model"]);
     Assign (Name "natgrad")
       (Call (Attribute (call (Name "NatGradOptimizer") [Name "gamma"])
                        "make_optimize_action")
             [Name "model"] [("var_list", Name "var_list")]);
     Assign (Name "actions") (PyList [Name "adam"; Name "natgrad"]);
     Assign (Name "actions")
       (IfExp (is_none "callback") (Name "actions")
              (BinOp (Name "actions") Add (PyList [Name "callback"])));
     Expr (call (Call (Name "Loop") [Name "actions"] [("stop", Name "iterations")]) []);
     anchor_model]
].

Definition cell_8 : cell := code_stream 8 [
  Expr (Call (Name "run_adam")
          [Name "gpr"; Name "learning_rate"; Name "iterations"]
          [("callback", call (Name "PrintAction") [Name "gpr"; Str "GPR with Adam"])])
].

Definition cell_9 : cell := code_stream 9 [
  Expr (Call (Name "run_nat_grads_with_adam")
          [Name "vgp"; Name "learning_rate"; Float "1."; Name "iterations"]
          [("callback", call (Name "PrintAction")
                          [Name "vgp"; Str "VGP with nat grads with Adam"])])
].

Definition lengthscales (name : string) : expr :=
  Subscript (call (qual name ["kern"; "lengthscales"; "read_value"]) [])
            (PyTuple []).

Definition cell_10 : cell := code_result 10 [
  Expr (method (Str "GPR lengthscales = {:.4f}, VGP lengthscales = {:.4f}")
               "format" [lengthscales "gpr"; lengthscales "vgp"])
].

Definition cell_11 : cell := code 11 [
  Assign (Name "svgp")
    (Call (Name "SVGP") [Name "X"; Name "Y"; matern; gaussian] [("Z", Name "Z")]);
  Assign (Name "sgpr")
    (Call (Name "SGPR") [Name "X"; Name "Y"; matern] [("Z", Name "Z")]);
  For (Name "model") (PyTuple [Name "svgp"; Name "sgpr"])
    [Assign (qual "model" ["likelihood"; "variance"]) (Float "0.1")]
].

Definition cell_12 : cell := code_result 12 [Expr (compute_log_likelihood "sgpr")].

Definition cell_13 : cell := code_result 13 [Expr (compute_log_likelihood "svgp")].

Definition svgp_var_list : expr :=
  PyList [PyTuple [qual "svgp" ["q_mu"]; qual "svgp" ["q_sqrt"]]].

Definition cell_14 : cell := code_result 14 [
  Expr (Call (Attribute (call (Name "NatGradOptimizer") [Float "1.0"]) "minimize")
          [Name "svgp"]
          [("maxiter", Num 1); ("var_list", svgp_var_list)]);
  Expr (compute_log_likelihood "svgp")
].

Definition cell_15 : cell := code 15 [
  Assign (Name "svgp") svgp_minibatch;
  Assign (qual "svgp" ["likelihood"; "variance"]) (Float "0.1");
  Expr (Call (Attribute (Call (Name "NatGradOptimizer") [] [("gamma", Float "0.1")])
                        "minimize")
          [Name "svgp"]
          [("maxiter", call (Name "notebook_niter") [Num 100]);
           ("var_list", svgp_var_list)])
].

Definition cell_16 : cell := code_result 16 [Expr (average_likelihood "svgp")].

Definition reset_cell (n : nat) : cell := code n [
  Expr (call (qual "gpflow" ["reset_default_graph_and_session"]) [])
].

Definition adam_minimize (name : string) : stmt :=
  Expr (Call (Attribute (call (Name "AdamOptimizer") [Name "learning_rate"])
                        "minimize")
          [Name name] [("maxiter", Name "iterations")]).

Definition cell_18 : cell := code 18 [
  Assign (Name "svgp_ordinary") svgp_minibatch;
  Assign (Name "svgp_nat") svgp_minibatch;
  adam_minimize "svgp_ordinary";
  Expr (call (Name "run_nat_grads_with_adam")
          [Name "svgp_nat"; Name "learning_rate"; Float "0.1"; Name "iterations"])
].

Definition cell_19 : cell := code_result 19 [Expr (average_likelihood "svgp_ordinary")].

Definition cell_20 : cell := code_result 20 [Expr (average_likelihood "svgp_nat")].

Definition vgp_bernoulli : expr :=
  call (Name "VGP") [Name "X"; Name "Y_binary"; matern; bernoulli].

Definition cell_22 : cell := code 22 [
  Assign (Name "Y_binary")
    (Call (qual "np" ["random"; "choice"]) [PyList [Float "1."; USub (Num 1)]]
          [("size", qual "X" ["shape"])]);
  Assign (Name "vgp_bernoulli") vgp_bernoulli;
  Assign (Name "vgp_bernoulli_natgrads") vgp_bernoulli;
  adam_minimize "vgp_bernoulli";
  Expr (call (Name "run_nat_grads_with_adam")
          [Name "vgp_bernoulli_natgrads"; Name "learning_rate"; Float "0.1";
           Name "iterations"])
].

Definition cell_23 : cell :=
  code_result 23 [Expr (compute_log_likelihood "vgp_bernoulli")].

Definition cell_24 : cell :=
  code_result 24 [Expr (compute_log_likelihood "vgp_bernoulli_natgrads")].

Definition cell_25 : cell := code 25 [
  Assign (Name "vgp_bernoulli_natgrads_xi") vgp_bernoulli;
  Assign (Name "var_list")
    (PyList [PyTuple [qual "vgp_bernoulli_natgrads_xi" ["q_mu"];
                      qual "vgp_bernoulli_natgrads_xi" ["q_sqrt"];
                      call (Name "XiSqrtMeanVar") []]]);
  Expr (Call (Name "run_nat_grads_with_adam")
          [Name "vgp_bernoulli_natgrads_xi"; Name "learning_rate"; Float "0.01";
           Name "iterations"]
          [("var_list", Name "var_list")])
].

Definition cell_26 : cell :=
  code_result 26 [Expr (compute_log_likelihood "vgp_bernoulli_natgrads_xi")].

Definition cells : list cell :=
  [cell_1; cell_2; cell_3; cell_4; cell_5; cell_6; cell_7; cell_8; cell_9;
   cell_10; cell_11; cell_12; cell_13; cell_14; cell_15; cell_16;
   reset_cell 17; cell_18; cell_19; cell_20; reset_cell 21; cell_22; cell_23;
   cell_24; cell_25; cell_26].

End NatGradsNb.

(** The repository's code: the two notebooks, each with its own names. *)
Definition notebooks : list (list cell) := [MonitorNb.cells; NatGradsNb.cells].

End Cells.

(** ** What the cells contain *)

Module Analysis.

Import Syntax.
Local Open Scope string_scope.

Definition names_of {A : Type} (l : list (string * A)) : list string :=
  map fst l.

Definition mem (x : string) (l : list string) : bool :=
  existsb (String.eqb x) l.

(** *** Arithmetic the code does with operators of its own *)









(** The library paths of the calls that go to an imported name. *)
Definition resolved_callee (tbl : list (string * string)) (e : expr)
    : option string :=
  match e with
  | Call f _ _ => resolve tbl f
  | _ => None
  end.

Definition library_calls (cells : list cell) (es : list expr) : list string :=
  omap (resolved_callee (imports cells)) es.



(** A list without its repetitions, first occurrences kept. *)
Fixpoint dedup_str (l : list string) : list string :=
  match l with
  | [] => []
  | x :: l => x :: filter (fun y => String.eqb x y = false) (dedup_str l)
  end.

(** *** Error handling, branches and warning filters *)

Definition is_handler (s : stmt) : bool :=
  match s with Try _ _ _ | Raise _ => true | _ => false end.

Definition error_handling (cells : list cell) : list stmt :=
  filter (fun s => is_handler s = true) (all_stmts cells).

(** An [if] statement, as the library calls of its test and of its body. *)
Definition guard_of (cells : list cell) (s : stmt)
    : option (list string * list string) :=
  match s with
  | If t body _ =>
      Some (library_calls cells (sub t),
            library_calls cells (all_exprs (flat_map nested body)))
  | _ => None
  end.

Definition guards (cells : list cell) : list (list string * list string) :=
  omap (guard_of cells) (all_stmts cells).

(** Calls into Python's [warnings] module, with their arguments. *)
Definition warning_call (cells : list cell) (e : expr)
    : option (string * list expr) :=
  match e with
  | Call f args _ =>
      match resolve (imports cells) f with
      | Some p => if String.prefix "warnings." p then Some (p, args) else None
      | None => None
      end
  | _ => None
  end.

Definition warning_calls (cells : list cell) : list (string * list expr) :=
  omap (warning_call cells) (all_exprs (all_stmts cells)).

(** "No branch resumes from a previous run and nothing alters how warnings
    surface": no [if] whose test probes the file system, and no call into
    [warnings]. *)
Definition probes_file_system (g : list string * list string) : bool :=
  existsb (String.prefix "os.path.") (fst g).

Definition no_recovery_no_filter (cells : list cell) : bool :=
  forallb (fun g => negb (probes_file_system g)) (guards cells)
  && match warning_calls cells with [] => true | _ => false end.

(** *** The phases of a notebook *)
















(** *** Lines for IPython *)

(** The [%] lines of the cells, and the [!] lines IPython hands to the
    shell. *)
Definition magics (cells : list cell) : list string :=
  omap (fun s => match s with Magic l => Some l | _ => None end)
       (all_stmts cells).

Definition shell_commands (cells : list cell) : list string :=
  omap (fun s => match s with Shell c => Some c | _ => None end)
       (all_stmts cells).

(** *** Every call, by what it goes to *)

(** What a call goes to: a name of a library, by the path the imports give
    it; a method of an object, by its name; a Python built-in; a function or
    class the cells define; or the value of another expression, as in
    [Loop(actions, stop=iterations)()]. *)
Inductive call_target : Type :=
| Library (path : string)
| Method (name : string)
| Builtin (name : string)
| Defined (name : string)
| Computed.

#[global] Instance call_target_eq_dec : EqDecision call_target.
Proof. solve_decision. Defined.

Definition target_of (cells : list cell) (e : expr) : option call_target :=
  match e with
  | Call f _ _ =>
      Some match resolve (imports cells) f with
           | Some p => Library p
           | None =>
               match f with
               | Name x =>
                   if mem x (names_of (defs cells))
                      || mem x (map (fun c => fst (fst c)) (classes cells))
                   then Defined x else Builtin x
               | Attribute _ a => Method a
               | _ => Computed
               end
           end
  | _ => None
  end.

(** The targets of all the calls of the cells, in evaluation order. *)
Definition call_targets (cells : list cell) : list call_target :=
  omap (target_of cells) (all_exprs (all_stmts cells)).

(** A list without its repetitions, first occurrences kept. *)
Fixpoint dedup {A : Type} `{EqDecision A} (l : list A) : list A :=
  match l with
  | [] => []
  | x :: l => x :: filter (fun y => y <> x) (dedup l)
  end.

Definition library_paths (ts : list call_target) : list string :=
  omap (fun t => match t with Library p => Some p | _ => None end) ts.

(** The calls of a built-in, as written. *)
Definition builtin_call_sites (cells : list cell) (name : string) : list expr :=
  filter (fun e => target_of cells e = Some (Builtin name))
         (all_exprs (all_stmts cells)).

(** *** Strings and directories *)

(** Every string literal of the cells. *)
Definition string_literals (cells : list cell) : list string :=
  omap (fun e => match e with Str s => Some s | _ => None end)
       (all_exprs (all_stmts cells)).

(** The string literals given to a call, as positional or keyword
    arguments, with the last component of the name the call goes to. *)
Definition string_args_of (e : expr) : list (string * string) :=
  match e, callee e with
  | Call _ args kws, Some f =>
      omap (fun a => match a with Str s => Some (f, s) | _ => None end)
           (args ++ map snd kws)%list
  | _, _ => []
  end.

Definition string_args (cells : list cell) : list (string * string) :=
  flat_map string_args_of (all_exprs (all_stmts cells)).

(** Modelled from the spec: the library classes of the notebooks that write
    under the directory they are given; [CheckpointTask] saves the model
    checkpoints and [LogdirWriter] writes the event log for visualisation. *)
Definition directory_writers : list string :=
  ["gpflow.training.monitor.CheckpointTask";
   "gpflow.training.monitor.LogdirWriter"].

Definition is_directory_writer (t : call_target) : bool :=
  match t with Library p => mem p directory_writers | _ => false end.

(** The calls of those classes, as written, with all their arguments. *)
Definition writer_calls (cells : list cell) : list expr :=
  filter (fun e => (is_directory_writer <$> target_of cells e) = Some true)
         (all_exprs (all_stmts cells)).

Definition keywords_of (e : expr) : list string :=
  match e with Call _ _ kws => map fst kws | _ => [] end.

Definition builtins_of (ts : list call_target) : list string :=
  omap (fun t => match t with Builtin x => Some x | _ => None end) ts.

(** *** Branches and context managers, as written *)

Definition if_statements (cells : list cell)
    : list (expr * list stmt * list stmt) :=
  omap (fun s => match s with If t b o => Some (t, b, o) | _ => None end)
       (all_stmts cells).

Definition conditional_expressions (cells : list cell) : list expr :=
  filter (fun e => match e with IfExp _ _ _ => true | _ => false end = true)
         (all_exprs (all_stmts cells)).

Definition with_items (cells : list cell) : list expr :=
  omap (fun s => match s with With i _ _ => Some i | _ => None end)
       (all_stmts cells).

(** The calls into Python's [warnings] module, as written. *)
Definition warning_call_sites (cells : list cell) : list expr :=
  filter (fun e => is_Some (warning_call cells e))
         (all_exprs (all_stmts cells)).

(** The assignments to something other than a variable of the notebook or
    an attribute of [self]: their targets, as written. *)
Fixpoint is_variable (e : expr) : bool :=
  match e with
  | Name _ => true
  | Attribute (Name "self") _ => true
  | PyTuple es => forallb is_variable es
  | _ => false
  end.

Definition assigned_elsewhere (cells : list cell) : list expr :=
  omap (fun s => match s with
                 | Assign t _ => if is_variable t then None else Some t
                 | _ => None
                 end) (all_stmts cells).

(** *** Classes and their attributes *)


(** The attributes of [self] an expression reads. *)
Definition self_reads (body : list stmt) : list string :=
  omap (fun e => match e with
                 | Attribute (Name "self") a => Some a
                 | _ => None
                 end) (body_exprs body).



(** *** Threads and processes *)

Definition imported_modules (cells : list cell) : list string :=
  flat_map (fun s => match s with
                     | Import m _ => [m]
                     | ImportFrom m _ => [m]
                     | _ => []
                     end) (all_stmts cells).

(** Modules of the standard library that start threads or processes or
    schedule coroutines. *)
Definition concurrency_modules : list string :=
  ["threading"; "_thread"; "multiprocessing"; "concurrent"; "asyncio";
   "subprocess"; "queue"; "sched"; "signal"; "select"; "selectors"].

Definition root_module (m : string) : string :=
  match index 0 "." m with
  | Some i => substring 0 i m
  | None => m
  end.

(** Library entry points that start a thread or a process. *)
Definition spawning_prefixes : list string :=
  ["os.fork"; "os.system"; "os.spawn"; "os.exec"; "os.popen"; "os.kill";
   "os.wait"; "os.startfile"; "os.posix_spawn";
   "tensorflow.train.Coordinator"; "tensorflow.train.start_queue_runners";
   "tensorflow.train.QueueRunner"; "tensorflow.train.Server"].

Definition spawns (p : string) : bool :=
  mem (root_module p) concurrency_modules
  || existsb (fun pre => String.prefix pre p) spawning_prefixes.

(** *** Function bodies *)

(** The body of the function or method of that name. *)
Definition body_of (cells : list cell) (name : string) : list stmt :=
  default [] (snd <$> List.find (fun d => String.eqb (fst d) name) (defs cells)).

(** For each statement of a body, the names its calls go to, in
    evaluation order. *)
Definition statement_calls (body : list stmt) : list (list string) :=
  map (fun s => omap callee (all_exprs (nested s))) body.

(** The bare names a body mentions. *)
Definition names_used (body : list stmt) : list string :=
  omap (fun e => match e with Name x => Some x | _ => None end)
       (body_exprs body).

(** The value of an integer expression, given the values of the integer
    names and the lengths of the arrays; [//] by zero raises. *)
Fixpoint eval_int (ints lens : string -> option Z) (e : expr) : option Z :=
  match e with
  | Num n => Some n
  | Name x => ints x
  | USub a => Z.opp <$> eval_int ints lens a
  | BinOp a op b =>
      x ← eval_int ints lens a;
      y ← eval_int ints lens b;
      match op with
      | Add => Some (x + y)%Z
      | Sub => Some (x - y)%Z
      | Mult => Some (x * y)%Z
      | FloorDiv => if (y =? 0)%Z then None else Some (Py.floordiv x y)
      | Pow | Mod => None
      end
  | Call (Name f) [Name x] [] => if String.eqb f "len" then lens x else None
  | _ => None
  end.

(** The bounds of the slices of a body, as written. *)
Definition slice_bounds (body : list stmt) : list (option expr * option expr) :=
  omap (fun e => match e with
                 | Slice None None => None
                 | Slice lo hi => Some (lo, hi)
                 | _ => None
                 end) (body_exprs body).

(** The integer constants a body assigns to names. *)
Definition int_assignments (body : list stmt) (x : string) : option Z :=
  head (omap (fun s => match s with
                       | Assign (Name y) (Num n) =>
                           if String.eqb x y then Some n else None
                       | _ => None
                       end) body).

(** The integer names [CustomTensorBoardTask.run] computes with: the
    constants its body assigns and the variable [mb] of its comprehension;
    and the length of the global [Xt]. *)
Definition run_ints (mb : Z) (x : string) : option Z :=
  if String.eqb x "mb" then Some mb
  else int_assignments
         (body_of Cells.MonitorNb.cells "CustomTensorBoardTask.run") x.

Definition run_lens (n : Z) (x : string) : option Z :=
  if String.eqb x "Xt" then Some n else None.

(** The sequences the cells iterate over themselves: the iterables of
    their [for] statements and list comprehensions. *)
Definition iterables (cells : list cell) : list expr :=
  omap (fun s => match s with For _ i _ => Some i | _ => None end)
       (all_stmts cells)
  ++ omap (fun e => match e with ListComp _ _ i => Some i | _ => None end)
          (all_exprs (all_stmts cells)).


(** Does an expression mention a name? *)
Definition mentions (x : string) (e : expr) : bool :=
  existsb (fun s => match s with Name y => String.eqb x y | _ => false end)
          (sub e).

(** Does an expression take a slice whose bounds depend on a name? *)
Definition slices_by (x : string) (e : expr) : bool :=
  existsb (fun s => match s with
                    | Slice lo hi =>
                        existsb (mentions x) (opt_list lo ++ opt_list hi)
                    | _ => false
                    end) (sub e).

(** The minibatch loops the cells write themselves: the comprehensions
    whose element takes a slice at the loop variable; with, for each, the
    function it is in. *)
Definition is_minibatch_loop (e : expr) : bool :=
  match e with ListComp elt x _ => slices_by x elt | _ => false end.

Definition minibatch_loops (ss : list stmt) : list expr :=
  filter (fun e => is_minibatch_loop e = true) (all_exprs (flat_map nested ss)).

Definition minibatch_loops_by_def (cells : list cell) : list (string * nat) :=
  map (fun d => (fst d, length (minibatch_loops (snd d)))) (defs cells).

(** "Minibatch iteration is internal to the library": the cells write no
    minibatch loop of their own. *)
Definition minibatches_left_to_library (cells : list cell) : bool :=
  match minibatch_loops (flat_map source cells) with
  | [] => true
  | _ => false
  end.

End Analysis.

(** ** What the two notebooks call *)

Module Called.

Import Analysis.
Local Open Scope string_scope.

(** The targets of the calls of monitor-tensorboard.ipynb, each once, in
    the order of its first call. *)
Definition by_monitor_notebook : list call_target :=
  [Library "numpy.random.seed"; Library "numpy.random.rand";
   Library "numpy.sin"; Library "numpy.random.randn";
   Library "gpflow.defer_build"; Library "gpflow.kernels.RBF";
   Library "gpflow.likelihoods.Gaussian"; Library "numpy.linspace";
   Library "gpflow.models.SVGP"; Method "compile";
   Method "compute_log_likelihood"; Builtin "print";
   Method "enquire_session";
   Library "gpflow.training.monitor.create_global_step";
   Library "gpflow.training.monitor.PrintTimingsTask";
   Method "with_name";
   Library "gpflow.training.monitor.PeriodicIterationCondition";
   Method "with_condition"; Method "with_exit_condition";
   Library "gpflow.training.monitor.SleepTask";
   Library "gpflow.training.monitor.CheckpointTask";
   Library "gpflow.training.monitor.LogdirWriter";
   Library "gpflow.training.monitor.ModelToTensorBoardTask";
   Library "gpflow.training.monitor.LmlToTensorBoardTask";
   Builtin "super"; Method "__init__";
   Library "tensorflow.placeholder";
   Library "tensorflow.summary.scalar";
   Library "tensorflow.summary.merge"; Builtin "len";
   Builtin "range"; Method "predict_y"; Library "numpy.vstack";
   Library "numpy.mean"; Method "_eval_summary";
   Defined "CustomTensorBoardTask";
   Library "gpflow.training.monitor.Monitor";
   Library "os.path.isdir";
   Library "gpflow.training.monitor.restore_session";
   Library "gpflow.train.AdamOptimizer"; Method "minimize";
   Method "close"].

(** The targets of the calls of the natural-gradients notebook. *)
Definition by_nat_grads_notebook : list call_target :=
  [Library "warnings.filterwarnings"; Library "numpy.random.seed";
   Library "numpy.random.uniform"; Library "numpy.sin";
   Library "gpflow.kernels.Matern52"; Method "run";
   Method "format"; Builtin "print"; Defined "make_matern_kernel";
   Library "gpflow.likelihoods.Gaussian"; Library "gpflow.models.VGP";
   Library "gpflow.models.GPR"; Method "compute_log_likelihood";
   Library "gpflow.training.NatGradOptimizer";
   Method "minimize"; Library "gpflow.training.AdamOptimizer";
   Method "make_optimize_action"; Library "gpflow.actions.Loop";
   Computed; Method "enquire_session"; Method "anchor";
   Method "set_trainable"; Defined "PrintAction";
   Defined "run_adam"; Defined "run_nat_grads_with_adam";
   Method "read_value"; Library "gpflow.models.SVGP";
   Library "gpflow.models.SGPR";
   Library "gpflow.test_util.notebook_niter";
   Library "gpflow.test_util.notebook_range";
   Library "numpy.average";
   Library "gpflow.reset_default_graph_and_session";
   Library "numpy.random.choice";
   Library "gpflow.likelihoods.Bernoulli";
   Library "gpflow.training.XiSqrtMeanVar"].

End Called.

(** * Properties *)

(** ** Python slices and ranges *)

Lemma norm_index_nonneg (n i : Z) :
  0 <= i -> Py.norm_index n i = Z.min i n.
Proof.
  intros Hi. unfold Py.norm_index.
  destruct (Z.ltb_spec i 0); [lia | reflexivity].
Qed.

Lemma slice_take_drop {A : Type} (l : list A) (a k : nat) :
  Py.slice l (Z.of_nat a) (Z.of_nat a + Z.of_nat k) = take k (drop a l).
Proof.
  unfold Py.slice, Py.len.
  rewrite !norm_index_nonneg by lia.
  destruct (Nat.le_gt_cases a (length l)) as [Hle | Hgt].
  - replace (Z.to_nat (Z.of_nat a `min` Z.of_nat (length l))) with a by lia.
    assert (Hlen : length (drop a l) = (length l - a)%nat) by apply length_drop.
    destruct (Nat.le_gt_cases k (length l - a)) as [Hk | Hk].
    + f_equal. lia.
    + rewrite (take_ge _ k) by lia. apply take_ge. lia.
  - rewrite (drop_ge l a) by lia.
    rewrite drop_ge by lia. by rewrite !take_nil.
Qed.

Lemma concat_chunks {A : Type} (l : list A) (k n : nat) :
  concat (map (fun i => take k (drop (i * k) l)) (seq 0 n)) = take (n * k) l.
Proof.
  induction n as [| n IH].
  - by rewrite take_0.
  - rewrite seq_S, map_app, concat_app, IH. simpl.
    rewrite app_nil_r, take_take_drop. f_equal. lia.
Qed.

(** ** The prediction minibatches of [CustomTensorBoardTask.run] *)

Section MinibatchProps.

Import Syntax Cells Analysis.

Context {Feat Pred Model Writer : Type}.
Variable predict_y : Model -> list Feat -> list Pred * list Pred.

Local Abbreviation task := (Monitor.CustomTensorBoardTask Feat Pred Model Writer).
Local Abbreviation globals := (Monitor.globals Feat Pred).

(** The count is the ceiling of [len(Xt) / 100]. *)
Lemma num_minibatches_ceil (xt : list Feat) :
  let q := Monitor.num_minibatches xt in
  0 <= q /\ Py.len xt <= q * 100 < Py.len xt + 100.
Proof.
  unfold Monitor.num_minibatches, Py.floordiv, Monitor.minibatch_size, Py.len.
  pose proof (Z.div_mod (- Z.of_nat (length xt)) 100 ltac:(lia)) as Hdm.
  pose proof (Z.mod_pos_bound (- Z.of_nat (length xt)) 100 ltac:(lia)) as Hb.
  lia.
Qed.

Lemma minibatch_take_drop (xt : list Feat) (i : nat) :
  Monitor.minibatch xt (Z.of_nat i) = take 100 (drop (i * 100) xt).
Proof.
  unfold Monitor.minibatch, Monitor.minibatch_size.
  replace (Z.of_nat i * 100) with (Z.of_nat (i * 100)) by lia.
  replace ((Z.of_nat i + 1) * 100)
    with (Z.of_nat (i * 100) + Z.of_nat 100) by lia.
  apply slice_take_drop.
Qed.

Lemma minibatches_concat (xt : list Feat) :
  concat (map (Monitor.minibatch xt) (Py.range (Monitor.num_minibatches xt)))
  = xt.
Proof.
  destruct (num_minibatches_ceil xt) as [Hq Hb].
  unfold Py.range. rewrite map_map.
  erewrite map_ext by (intros i; apply minibatch_take_drop).
  rewrite concat_chunks. apply take_ge. unfold Py.len in Hb. lia.
Qed.

Lemma minibatch_length (xt : list Feat) (mb : Z) :
  0 <= mb ->
  Py.len (Monitor.minibatch xt mb)
  = Z.max 0 (Z.min 100 (Py.len xt - mb * 100)).
Proof.
  intros Hmb. rewrite <- (Z2Nat.id mb Hmb), minibatch_take_drop.
  unfold Py.len. rewrite length_take, length_drop. lia.
Qed.

(** C8: for a non-empty test array, and a [predict_y] that returns one
    prediction row per input row: the argument of [range] in the source
    evaluates to [n = -(-len(Xt) // 100)] and the bounds of the slice to
    [mb * 100] and [(mb + 1) * 100]; [n] is the ceiling of [len(Xt) / 100];
    the slices [Xt[mb*100:(mb+1)*100]] for [mb] in that
    range, concatenated in order, are [Xt] itself; every slice but the last
    has 100 rows and the last has the remaining [len(Xt) - 100 * (n - 1)]
    rows, between 1 and 100, which is fewer than 100 exactly when [len(Xt)]
    is not a multiple of 100; [predict_y] is called [n] times, once on each
    slice in order, and gives a block of as many rows as its slice; and the
    stacked prediction matrix is these blocks one after the other and has
    [len(Xt)] rows. *)
Theorem minibatches_partition_test_set
    (glb : globals) (self : task) :
  Monitor.g_Xt glb <> [] ->
  (forall m x, length (fst (predict_y m x)) = length x) ->
  let xt := Monitor.g_Xt glb in
  let n := Monitor.num_minibatches xt in
  (exists count, iterables MonitorNb.cells = [Call (Name "range") [count] []] /\
     forall mb, eval_int (run_ints mb) (run_lens (Py.len xt)) count = Some n) /\
  (exists lo hi,
     slice_bounds (body_of MonitorNb.cells "CustomTensorBoardTask.run")
     = [(Some lo, Some hi)] /\
     forall mb,
       eval_int (run_ints mb) (run_lens (Py.len xt)) lo = Some (mb * 100) /\
       eval_int (run_ints mb) (run_lens (Py.len xt)) hi
       = Some ((mb + 1) * 100)) /\
  (1 <= n /\ (n - 1) * 100 < Py.len xt <= n * 100) /\
  concat (map (Monitor.minibatch xt) (Py.range n)) = xt /\
  (forall mb, 0 <= mb < n - 1 -> Py.len (Monitor.minibatch xt mb) = 100) /\
  (Py.len (Monitor.minibatch xt (n - 1)) = Py.len xt - 100 * (n - 1) /\
   0 < Py.len (Monitor.minibatch xt (n - 1)) <= 100 /\
   (Py.len (Monitor.minibatch xt (n - 1)) < 100 <-> Py.len xt mod 100 <> 0)) /\
  Py.len (Monitor.pred_blocks predict_y glb self) = n /\
  (forall (i : nat) (block : list Pred),
     Monitor.pred_blocks predict_y glb self !! i = Some block ->
     block = fst (predict_y (Monitor.model self)
                            (Monitor.minibatch xt (Z.of_nat i))) /\
     Py.len block = Py.len (Monitor.minibatch xt (Z.of_nat i))) /\
  exists p,
    Monitor.preds predict_y glb self = Some p /\
    p = concat (Monitor.pred_blocks predict_y glb self) /\
    Py.len p = Py.len xt.
Proof.
  intros Hne Hrows xt n.
  destruct (num_minibatches_ceil xt) as [Hq Hb]. fold n in Hq, Hb.
  assert (Hlen : 0 < Py.len xt).
  { unfold Py.len, xt. destruct (Monitor.g_Xt glb); [done | simpl; lia]. }
  assert (Hn : 1 <= n) by lia.
  split; [eexists; split; [reflexivity | intros mb; reflexivity] |].
  split; [do 2 eexists; split; [reflexivity | intros mb; split; reflexivity] |].
  split; [lia |]. split; [apply minibatches_concat |].
  split.
  { intros mb Hmb. rewrite minibatch_length by lia. lia. }
  split.
  { rewrite minibatch_length by lia.
    split; [lia |]. split; [lia |].
    rewrite Z.mod_divide by lia. split.
    - intros Hlt [c Hc]. lia.
    - intros Hnd.
      destruct (Z.eq_dec (Py.len xt) (n * 100)) as [E | E]; [| lia].
      exfalso. apply Hnd. exists n. exact E. }
  split.
  { unfold Monitor.pred_blocks, Py.len, Py.range. fold xt n.
    rewrite !length_map, length_seq. lia. }
  split.
  { intros i block Hi. unfold Monitor.pred_blocks, Py.range in Hi.
    fold xt n in Hi. rewrite map_map in Hi.
    change (map ?f ?l) with (f <$> l) in Hi.
    rewrite list_lookup_fmap in Hi.
    destruct (seq 0 (Z.to_nat n) !! i) as [k |] eqn:Hk; [| done].
    apply lookup_seq in Hk as [-> _]. simpl in Hi. injection Hi as <-.
    split; [reflexivity |]. unfold Py.len. by rewrite Hrows. }
  unfold Monitor.preds, Monitor.pred_blocks. fold xt n.
  assert (Hr : Py.range n <> []).
  { unfold Py.range. destruct (Z.to_nat n) eqn:E; [lia | done]. }
  destruct (Py.range n) as [| mb0 r] eqn:Er; [done |].
  eexists. split; [reflexivity |]. split; [reflexivity |].
  unfold Py.len. f_equal.
  rewrite length_concat, map_map.
  erewrite map_ext by (intros mb; apply Hrows).
  rewrite <- map_map, <- length_concat, <- Er.
  by rewrite minibatches_concat.
Qed.

End MinibatchProps.

(** A test array of 250 rows and a [predict_y] that returns its input: three
    minibatches, the last of 50 rows, three blocks of predictions and 250
    stacked prediction rows. *)
Lemma minibatches_partition_test_set_witness :
  let xt := Py.range 250 in
  let glb := Instances.test_globals in
  let self := fst Instances.first_task in
  Monitor.num_minibatches xt = 3 /\
  Py.len (Monitor.minibatch xt 2) = 50 /\
  Py.len (Monitor.pred_blocks Instances.predict_y glb self) = 3 /\
  exists p,
    Monitor.preds Instances.predict_y glb self = Some p /\
    p = concat (Monitor.pred_blocks Instances.predict_y glb self) /\
    Py.len p = 250.
Proof.
  intros xt glb self.
  assert (Hne : Monitor.g_Xt glb <> []) by discriminate.
  assert (Hrows : forall (m : unit) (x : list Z),
             length (fst (Instances.predict_y m x)) = length x) by reflexivity.
  destruct (minibatches_partition_test_set Instances.predict_y glb self Hne Hrows)
    as (_ & _ & _ & _ & _ & _ & Hn & _ & Hp).
  split; [reflexivity |]. split; [reflexivity |]. split; [exact Hn |]. exact Hp.
Defined.

(** ** [run] reads the global test arrays *)

Section RunProps.

Import Syntax Cells Analysis.

Context {Feat Pred F Model Writer Names : Type}.
Variable unique_name : string -> Names -> string * Names.
Variable predict_y : Model -> list Feat -> list Pred * list Pred.
Variable row_sub : Pred -> Pred -> Pred.
Variable np_pow : list Pred -> F -> list Pred.
Variable np_mean : list Pred -> F.
Variable f_pow : F -> F -> F.
Variables (f_two f_half f_zero : F).

Local Abbreviation init := (Monitor.init unique_name).
Local Abbreviation run :=
  (Monitor.run predict_y row_sub np_pow np_mean f_pow f_two f_half f_zero).
Local Abbreviation test_err :=
  (Monitor.test_err row_sub np_pow np_mean f_pow f_two f_half).

(** What [__init__] builds: the two placeholders are the next two nodes of
    the graph, and the summary is over them, in this order, under the tags
    the graph gives. *)
Lemma init_shape (fw : Writer) (m : Model) (xt : list Feat) (yt : list Pred)
    (g : Monitor.graph Names) :
  exists t1 t2,
    fst (init fw m xt yt g)
    = {| Monitor.file_writer := fw; Monitor.model := m;
         Monitor.Xt := xt; Monitor.Yt := yt;
         Monitor._full_test_err := Monitor.next_node g;
         Monitor._full_test_nlpp := S (Monitor.next_node g);
         Monitor._summary := [(t1, Monitor.next_node g);
                              (t2, S (Monitor.next_node g))] |}.
Proof.
  unfold Monitor.init, Monitor.tf_placeholder, Monitor.tf_summary_scalar,
    Monitor.tf_summary_merge, Monitor.new_op.
  repeat (destruct (unique_name _ _); simpl). eauto.
Qed.

Lemma run_of_init (fw : Writer) (m : Model) (xt : list Feat) (yt : list Pred)
    (g : Monitor.graph Names) :
  exists t1 t2,
    map fst (Monitor._summary (fst (init fw m xt yt g))) = [t1; t2] /\
    forall glb ctx,
      run glb (fst (init fw m xt yt g)) ctx
      = p ← Py.vstack
             (map (fun mb =>
                     fst (predict_y m (Monitor.minibatch (Monitor.g_Xt glb) mb)))
                  (Py.range (Monitor.num_minibatches (Monitor.g_Xt glb))));
        e ← test_err glb p;
        Some {| Monitor.ev_writer := fw;
                Monitor.ev_step := Monitor.global_step ctx;
                Monitor.ev_values := [(t1, e); (t2, f_zero)] |}.
Proof.
  destruct (init_shape fw m xt yt g) as (t1 & t2 & ->).
  exists t1, t2. split; [reflexivity |]. intros glb ctx.
  unfold Monitor.run, Monitor.preds, Monitor.pred_blocks. simpl.
  destruct (Py.vstack _) as [p |]; [| reflexivity]. simpl.
  destruct (test_err glb p) as [e |]; [| reflexivity]. simpl.
  unfold Monitor._eval_summary, Monitor.feed_lookup. simpl.
  set (node := Monitor.next_node g).
  assert (Hne : (node =? S node)%nat = false) by (apply Nat.eqb_neq; lia).
  by rewrite (Nat.eqb_refl node), Hne.
Qed.

(** C9: the body of [run] in the source reads the attributes [model],
    [_eval_summary] and the two placeholders of [self], not [self.Xt] or
    [self.Yt], and uses the bare names [Xt] and [Yt]; and two instances of
    [CustomTensorBoardTask] constructed with different test arrays, at any
    two states of the graph (the second may be built in the graph the first
    has left), for the same writer and model, log the same values at the
    same step when run in the same notebook state, or both fail: the logged
    [test_rmse] is computed from the global [Xt] and [Yt], followed by a
    zero, and the constructor's arrays do not occur in it. *)
Theorem run_independent_of_constructor_arrays
    (glb : Monitor.globals Feat Pred) (fw : Writer) (m : Model)
    (xt1 xt2 : list Feat) (yt1 yt2 : list Pred) (g1 g2 : Monitor.graph Names)
    (ctx : Monitor.MonitorContext) :
  let body := body_of MonitorNb.cells "CustomTensorBoardTask.run" in
  let self1 := fst (init fw m xt1 yt1 g1) in
  let self2 := fst (init fw m xt2 yt2 g2) in
  let logged := fun ev : Monitor.event F Writer =>
    (Monitor.ev_writer ev, Monitor.ev_step ev, map snd (Monitor.ev_values ev)) in
  self_reads body
  = ["model"; "_eval_summary"; "_full_test_err"; "_full_test_nlpp"]%string /\
  dedup_str (names_used body)
  = ["minibatch_size"; "np"; "range"; "len"; "Xt"; "self"; "mb"; "preds";
     "Yt"; "test_err"; "context"]%string /\
  logged <$> run glb self1 ctx = logged <$> run glb self2 ctx /\
  (forall ev,
     run glb self1 ctx = Some ev ->
     exists p e,
       Monitor.preds predict_y glb self1 = Some p /\
       test_err glb p = Some e /\
       map snd (Monitor.ev_values ev) = [e; f_zero]).
Proof.
  intros body self1 self2 logged.
  split; [reflexivity |]. split; [reflexivity |].
  destruct (run_of_init fw m xt1 yt1 g1) as (a1 & a2 & _ & H1).
  destruct (run_of_init fw m xt2 yt2 g2) as (b1 & b2 & _ & H2).
  split.
  - unfold self1, self2. rewrite H1, H2.
    destruct (Py.vstack _) as [p |]; [| reflexivity]. simpl.
    by destruct (test_err glb p).
  - intros ev Hev. unfold self1 in *. rewrite H1 in Hev.
    destruct (init_shape fw m xt1 yt1 g1) as (t1 & t2 & ->).
    unfold Monitor.preds, Monitor.pred_blocks. simpl.
    destruct (Py.vstack _) as [p |]; [| done]. simpl in Hev.
    destruct (test_err glb p) as [e |] eqn:He; [| done].
    injection Hev as <-. by exists p, e.
Qed.

End RunProps.

(** Two tasks built one after the other in one graph, with different test
    arrays, log the same values on the 250 rows of the global test set. *)
Lemma run_independent_of_constructor_arrays_witness :
  let logged := fun ev : Monitor.event Z unit =>
    (Monitor.ev_writer ev, Monitor.ev_step ev, map snd (Monitor.ev_values ev)) in
  let ctx := {| Monitor.global_step := 7 |} in
  logged <$> Instances.run_on Instances.test_globals (fst Instances.first_task) ctx
  = logged <$> Instances.run_on Instances.test_globals
                 (fst Instances.second_task) ctx.
Proof.
  intros logged ctx.
  exact (proj1 (proj2 (proj2
           (run_independent_of_constructor_arrays
              Tf.unique_name Instances.predict_y Z.sub
              (fun p e => map (fun x => x ^ e) p) (fun p => foldr Z.add 0 p)
              Z.pow 2 1 0 Instances.test_globals tt tt [] [7] [] [7]
              Tf.empty_graph (snd Instances.first_task) ctx)))).
Defined.

(** With TensorFlow's unique names, the second of the two tasks logs under
    tags of its own. *)
Example tags_of_two_tasks :
  let ctx := {| Monitor.global_step := 7 |} in
  (Monitor.ev_values <$>
     Instances.run_on Instances.test_globals (fst Instances.first_task) ctx)
  = Some [("test_rmse"%string, 0); ("test_nlpp"%string, 0)] /\
  (Monitor.ev_values <$>
     Instances.run_on Instances.test_globals (fst Instances.second_task) ctx)
  = Some [("test_rmse_1"%string, 0); ("test_nlpp_1"%string, 0)].
Proof. vm_compute. split; reflexivity. Qed.

(** ** [run_nat_grads_with_adam] freezes the variational parameters *)

Section NatGradsProps.

Import NatGrads.

Context {V F S : Type}.
Variable adam_value : F -> S -> Model V -> pref -> V.
Variable adam_slots : F -> S -> Model V -> list pref -> S.
Variable natgrad_values :
  F -> Model V -> pref * pref * option XiTransform -> V * V.
Variable likelihood_tensor : string -> Model V -> F.
Variable format_4 : F -> string.

Local Abbreviation run_action :=
  (run_action adam_value adam_slots natgrad_values likelihood_tensor format_4).
Local Abbreviation Loop :=
  (Loop adam_value adam_slots natgrad_values likelihood_tensor format_4).
Local Abbreviation run_nat_grads_with_adam :=
  (run_nat_grads_with_adam adam_value adam_slots natgrad_values
     likelihood_tensor format_4).

Lemma flags_update_assign (r : pref) (v : V) (m : Model V) :
  variational_flags (update r (assign v) m) = variational_flags m.
Proof. by destruct r. Qed.

Lemma flags_foldr_assign (g : pref -> V) vars (m : Model V) :
  variational_flags (foldr (fun r m => update r (assign (g r)) m) m vars)
  = variational_flags m.
Proof.
  induction vars as [| r vars IH]; simpl; [done |].
  by rewrite flags_update_assign.
Qed.

Lemma flags_adam_step lr vars (st : state V S) :
  variational_flags (mdl (adam_step adam_value adam_slots lr vars st))
  = variational_flags (mdl st).
Proof. apply flags_foldr_assign. Qed.

Lemma flags_natgrad_step gamma vl (st : state V S) :
  variational_flags (mdl (natgrad_step natgrad_values gamma vl st))
  = variational_flags (mdl st).
Proof.
  unfold natgrad_step. simpl. generalize (mdl st) at 2 3 as m0.
  induction vl as [| [[mu sq] xi] vl IH]; intros m0; simpl; [done |].
  destruct (natgrad_values _ _ _) as [vmu vsq].
  by rewrite !flags_update_assign.
Qed.

Lemma flags_run_action a ctx (st : state V S) :
  variational_flags (mdl (run_action a ctx st)) = variational_flags (mdl st).
Proof.
  destruct a; simpl;
    [apply flags_adam_step | apply flags_natgrad_step | done].
Qed.

Lemma flags_actions actions ctx (st : state V S) :
  variational_flags (mdl (foldl (fun st a => run_action a ctx st) st actions))
  = variational_flags (mdl st).
Proof.
  revert st. induction actions as [| a actions IH]; intros st; simpl; [done |].
  by rewrite IH, flags_run_action.
Qed.

Lemma flags_Loop actions stop (st : state V S) :
  variational_flags (mdl (Loop actions stop st)) = variational_flags (mdl st).
Proof.
  unfold NatGrads.Loop. generalize (Py.range stop) as its. intros its.
  revert st. induction its as [| i its IH]; intros st; simpl; [done |].
  by rewrite IH, flags_actions.
Qed.

Lemma trainable_tensors_freeze (m : Model V) :
  (Q_mu ∉ trainable_tensors (freeze_variational m)) /\
  (Q_sqrt ∉ trainable_tensors (freeze_variational m)).
Proof.
  unfold trainable_tensors. simpl.
  split; intros [n [Hn _]]%list_elem_of_fmap; discriminate.
Qed.

(** A step over variables that do not include a parameter leaves that
    parameter as it is. *)
Lemma foldr_update_q_mu (f : pref -> Param V -> Param V) vars (m : Model V) :
  Q_mu ∉ vars ->
  q_mu (foldr (fun r m => update r (f r) m) m vars) = q_mu m.
Proof.
  induction vars as [| r vars IH]; simpl; [done |].
  intros [Hr Hin]%not_elem_of_cons.
  destruct r; simpl; [done | auto | auto].
Qed.

Lemma foldr_update_q_sqrt (f : pref -> Param V -> Param V) vars (m : Model V) :
  Q_sqrt ∉ vars ->
  q_sqrt (foldr (fun r m => update r (f r) m) m vars) = q_sqrt m.
Proof.
  induction vars as [| r vars IH]; simpl; [done |].
  intros [Hr Hin]%not_elem_of_cons.
  destruct r; simpl; [auto | done | auto].
Qed.

Lemma trainable_anchor_if_trainable (p : Param V) :
  trainable (anchor_if_trainable p) = trainable p.
Proof. unfold anchor_if_trainable. by destruct (trainable p) eqn:E. Qed.

Lemma flags_anchor (m : Model V) :
  variational_flags (anchor m) = variational_flags m.
Proof.
  unfold variational_flags. simpl.
  by rewrite !trainable_anchor_if_trainable.
Qed.

(** How [run_nat_grads_with_adam] ends, by the variables that are trainable
    after the two [set_trainable(False)] calls. *)
Lemma run_nat_grads_with_adam_outcome
    (st : state V S) (lr gamma : F) (iterations : Z)
    (var_list : option (list (pref * pref * option XiTransform)))
    (callback : option (Action F)) :
  let m := freeze_variational (mdl st) in
  let vars := trainable_tensors m in
  run_nat_grads_with_adam st lr gamma iterations var_list callback
  = match vars with
    | [] => Raised (with_model st m)
    | _ => Returned
             (anchor_state
                (Loop ([AdamAction lr vars;
                        NatGradAction gamma
                          (default [(Q_mu, Q_sqrt, None)] var_list)]
                       ++ option_list callback)
                      iterations (with_model st m)))
    end.
Proof.
  intros m vars.
  unfold NatGrads.run_nat_grads_with_adam, Adam_make_optimize_action.
  fold m. fold vars.
  by destruct vars, var_list, callback.
Qed.

(** C4: in the source the two [set_trainable] calls are statements of the
    function body itself, after the [if] on [var_list] (which contains no
    call) and before the statement that builds the Adam action; and whatever
    [var_list] and [callback] the caller gives, the Adam action is built on
    the model after the two [set_trainable(False)] calls, over the variables
    trainable then, which include neither [q_mu] nor [q_sqrt]: if there are
    none the library raises at that statement and the function ends there,
    otherwise the function runs the loop [adam; natgrad (; callback)] on
    that model and anchors; a step of [adam] leaves both parameters as they
    are in every state; and on the model the function leaves, both are
    still not trainable. *)
Theorem run_nat_grads_with_adam_freezes_variational
    (st : state V S) (lr gamma : F) (iterations : Z)
    (var_list : option (list (pref * pref * option XiTransform)))
    (callback : option (Action F)) :
  let m := freeze_variational (mdl st) in
  let vars := trainable_tensors m in
  let adam := AdamAction lr vars in
  let natgrad :=
    NatGradAction gamma (default [(Q_mu, Q_sqrt, None)] var_list) in
  let out := run_nat_grads_with_adam st lr gamma iterations var_list callback in
  Analysis.statement_calls
    (Analysis.body_of Cells.NatGradsNb.cells "run_nat_grads_with_adam")
  = [[]; ["set_trainable"]; ["set_trainable"];
     ["AdamOptimizer"; "make_optimize_action"];
     ["NatGradOptimizer"; "make_optimize_action"]; []; []; ["Loop"];
     ["enquire_session"; "anchor"]]%string /\
  Adam_make_optimize_action lr m
  = match vars with [] => None | _ => Some adam end /\
  out = match vars with
        | [] => Raised (with_model st m)
        | _ => Returned
                 (anchor_state
                    (Loop ([adam; natgrad] ++ option_list callback) iterations
                          (with_model st m)))
        end /\
  trainable (q_mu m) = false /\ trainable (q_sqrt m) = false /\
  (Q_mu ∉ vars) /\ (Q_sqrt ∉ vars) /\
  (forall ctx s,
     q_mu (mdl (run_action adam ctx s)) = q_mu (mdl s) /\
     q_sqrt (mdl (run_action adam ctx s)) = q_sqrt (mdl s)) /\
  trainable (q_mu (mdl (final out))) = false /\
  trainable (q_sqrt (mdl (final out))) = false.
Proof.
  intros m vars adam natgrad out.
  destruct (trainable_tensors_freeze (mdl st)) as [Hmu Hsq].
  fold m in Hmu, Hsq. fold vars in Hmu, Hsq.
  split; [reflexivity |].
  split.
  { unfold Adam_make_optimize_action. fold vars. by destruct vars. }
  split; [apply run_nat_grads_with_adam_outcome |].
  split; [reflexivity |]. split; [reflexivity |].
  split; [done |]. split; [done |].
  split.
  { intros ctx s. simpl. split.
    - by apply foldr_update_q_mu.
    - by apply foldr_update_q_sqrt. }
  assert (Hfl : variational_flags (mdl (final out)) = (false, false)).
  { unfold out. rewrite run_nat_grads_with_adam_outcome.
    fold m. fold vars.
    destruct vars; simpl; [reflexivity |].
    by rewrite flags_anchor, flags_Loop. }
  by injection Hfl.
Qed.

End NatGradsProps.

(** ** What the notebooks contain *)

Section Inventory.

Import Syntax Cells Analysis.
Local Open Scope string_scope.



(** C3, as stated, fails in both notebooks: the monitor notebook has an [if]
    that probes the file system for the checkpoints of an earlier run and
    restores the session from them, so that the session the optimisation
    starts from depends on that directory; the natural-gradients notebook
    calls [warnings.filterwarnings('ignore')]. *)
Lemma restore_guard_and_warning_filter :
  map no_recovery_no_filter notebooks = [false; false] /\
  In (["os.path.isdir"], ["gpflow.training.monitor.restore_session"])
     (guards MonitorNb.cells) /\
  In ("warnings.filterwarnings", [Str "ignore"])
     (warning_calls NatGradsNb.cells) /\
  Monitor.restore_if_saved (fun _ => true) (fun _ _ => 450%Z) 0%Z = 450%Z /\
  Monitor.restore_if_saved (fun _ => false) (fun _ _ => 450%Z) 0%Z = 0%Z.
Proof. vm_compute. intuition. Qed.

(** C3, amended: the cells contain no [try] and no [raise]; they contain
    two [if] statements, both without [else]: the guard of the monitor
    notebook, [if os.path.isdir('./monitor-saves'):
    mon.restore_session(session, './monitor-saves')], which resumes from the
    checkpoints of an earlier run, and the default [if var_list is None] of
    [run_nat_grads_with_adam]; their two conditional expressions test
    [callback is None]; their [with] statements enter the library's
    [defer_build] and [Monitor]; the one call into [warnings] is
    [filterwarnings('ignore')] in the natural-gradients notebook; outside
    their own variables the cells assign [os.environ['CUDA_VISIBLE_DEVICES']]
    and the likelihood variance of three models; they hand no line to the
    shell; and their calls go to the targets listed in [Called] and to no
    other. *)
Theorem no_handlers_one_restore_guard_one_warning_filter :
  map error_handling notebooks = [[]; []] /\
  map if_statements notebooks
  = [[(call (qual "os" ["path"; "isdir"]) [Str "./monitor-saves"],
       [Expr (call (qual "mon" ["restore_session"])
                [Name "session"; Str "./monitor-saves"])],
       [])];
     [(Is (Name "var_list") (NameConstant PyNone),
       [Assign (Name "var_list")
          (PyList [PyTuple [qual "model" ["q_mu"]; qual "model" ["q_sqrt"]]])],
       [])]] /\
  map conditional_expressions notebooks
  = [[];
     [IfExp (Is (Name "callback") (NameConstant PyNone))
            (PyList [Name "adam"]) (PyList [Name "adam"; Name "callback"]);
      IfExp (Is (Name "callback") (NameConstant PyNone))
            (Name "actions")
            (BinOp (Name "actions") Add (PyList [Name "callback"]))]] /\
  map with_items notebooks
  = [[call (qual "gpflow" ["defer_build"]) [];
      Call (qual "mon" ["Monitor"])
           [Name "monitor_tasks"; Name "session"; Name "global_step"]
           [("print_summary", NameConstant PyTrue)]];
     []] /\
  map warning_call_sites notebooks
  = [[]; [call (qual "warnings" ["filterwarnings"]) [Str "ignore"]]] /\
  map assigned_elsewhere notebooks
  = [[Subscript (qual "os" ["environ"]) (Str "CUDA_VISIBLE_DEVICES");
      qual "m" ["likelihood"; "variance"]];
     [qual "model" ["likelihood"; "variance"];
      qual "svgp" ["likelihood"; "variance"]]] /\
  map magics notebooks
  = [["matplotlib inline"]; ["matplotlib inline"; "precision 4"]] /\
  map shell_commands notebooks = [[]; []] /\
  map (fun nb => dedup (call_targets nb)) notebooks
  = [Called.by_monitor_notebook; Called.by_nat_grads_notebook].
Proof. vm_compute. repeat split. Qed.



(** C6: the cells hand no line to the shell, and their magics are
    [%matplotlib inline] and [%precision 4];
    their calls go to the targets listed in [Called] and to no other; of
    these, the built-ins are [print], [super], [len] and [range], and no
    [print] is given a file; the targets that write under a directory they
    are given are the library's [CheckpointTask] and [LogdirWriter], called
    once each, in the monitor notebook, as [mon.CheckpointTask('./monitor-saves')]
    and [mon.LogdirWriter('./model-tensorboard')]; the string literals of
    the cells are the ones listed, with no other path among them; and the
    strings given to calls are the ones listed, './monitor-saves' being
    given also to the reads [os.path.isdir] and [restore_session]. *)
Theorem files_written_only_by_the_library :
  map magics notebooks
  = [["matplotlib inline"]; ["matplotlib inline"; "precision 4"]] /\
  map shell_commands notebooks = [[]; []] /\
  map (fun nb => dedup (call_targets nb)) notebooks
  = [Called.by_monitor_notebook; Called.by_nat_grads_notebook] /\
  map (fun nb => length (call_targets nb)) notebooks
  = map (fun nb => length (calls (all_stmts nb))) notebooks /\
  map builtins_of [Called.by_monitor_notebook; Called.by_nat_grads_notebook]
  = [["print"; "super"; "len"; "range"]; ["print"]] /\
  map (fun nb => map keywords_of (builtin_call_sites nb "print")) notebooks
  = [[[]; []]; [[]]] /\
  map (filter (fun t => is_directory_writer t = true))
      [Called.by_monitor_notebook; Called.by_nat_grads_notebook]
  = [[Library "gpflow.training.monitor.CheckpointTask";
      Library "gpflow.training.monitor.LogdirWriter"]; []] /\
  map writer_calls notebooks
  = [[call (qual "mon" ["CheckpointTask"]) [Str "./monitor-saves"];
      call (qual "mon" ["LogdirWriter"]) [Str "./model-tensorboard"]]; []] /\
  map (fun nb => dedup_str (string_literals nb)) notebooks
  = [[EmptyString; "CUDA_VISIBLE_DEVICES"; "SVGP";
      "LML before the optimisation: %f"; "print"; "sleep";
      "./monitor-saves"; "saver"; "./model-tensorboard"; "model_tboard";
      "lml_tboard"; "test_rmse"; "test_nlpp"; "custom_tboard";
      "LML after the optimisation: %f"];
     ["ignore"; "{}: iteration {} likelihood {:.4f}"; "GPR with Adam";
      "VGP with nat grads with Adam";
      "GPR lengthscales = {:.4f}, VGP lengthscales = {:.4f}"]] /\
  map string_args notebooks
  = [[("SVGP", "SVGP");
      ("with_name", "print"); ("with_name", "sleep"); ("with_name", "sleep");
      ("CheckpointTask", "./monitor-saves"); ("with_name", "saver");
      ("LogdirWriter", "./model-tensorboard"); ("with_name", "model_tboard");
      ("with_name", "lml_tboard"); ("scalar", "test_rmse");
      ("scalar", "test_nlpp"); ("with_name", "custom_tboard");
      ("isdir", "./monitor-saves"); ("restore_session", "./monitor-saves")];
     [("filterwarnings", "ignore"); ("PrintAction", "GPR with Adam");
      ("PrintAction", "VGP with nat grads with Adam")]].
Proof. vm_compute. repeat split. Qed.

End Inventory.

(** ** The classes the notebooks define *)

Section Classes.

Import Syntax Cells Analysis.
Local Open Scope string_scope.



(** *** Threads, processes and minibatch loops *)

(** C10, as stated, fails: not all minibatch iteration is internal to the
    library.  [CustomTensorBoardTask.run] iterates over the test set in
    minibatches itself: its list comprehension takes the slice
    [Xt[mb * minibatch_size:(mb + 1) * minibatch_size]] at each [mb] of a
    [range], and on 250 rows it asks the model for three blocks of
    predictions, of 100, 100 and 50 rows. *)
Lemma custom_task_iterates_over_minibatches :
  map minibatches_left_to_library notebooks = [false; true] /\
  In ("CustomTensorBoardTask.run", 1%nat)
     (minibatch_loops_by_def MonitorNb.cells) /\
  map length (Monitor.pred_blocks Instances.predict_y Instances.test_globals
                (fst Instances.first_task))
  = [100; 100; 50]%nat.
Proof. vm_compute. intuition. Qed.

(** C10, amended: the notebooks import no module that starts threads or
    processes or schedules coroutines; they hand no line to the shell;
    their calls go to the targets listed in [Called] and to no other, and
    none of the library entry points among them starts a thread or a
    process; the one minibatch loop the cells write themselves is the list
    comprehension of [CustomTensorBoardTask.run]; and what the cells
    iterate over themselves, in one [for] statement and four list
    comprehensions, they iterate over in sequence. *)
Theorem no_threads_or_processes :
  map (fun nb => dedup_str (imported_modules nb)) notebooks
  = [["itertools"; "os"; "numpy"; "gpflow"; "gpflow.training.monitor";
      "numbers"; "matplotlib.pyplot"; "tensorflow"];
     ["matplotlib"; "warnings"; "numpy"; "tensorflow"; "gpflow";
      "gpflow.test_util"; "gpflow.actions"; "gpflow.models";
      "gpflow.training"]] /\
  forallb (fun m => negb (mem (root_module m) concurrency_modules))
          (flat_map imported_modules notebooks) = true /\
  map magics notebooks
  = [["matplotlib inline"]; ["matplotlib inline"; "precision 4"]] /\
  map shell_commands notebooks = [[]; []] /\
  map (fun nb => dedup (call_targets nb)) notebooks
  = [Called.by_monitor_notebook; Called.by_nat_grads_notebook] /\
  map (fun nb => length (call_targets nb)) notebooks
  = map (fun nb => length (calls (all_stmts nb))) notebooks /\
  forallb (fun p => negb (spawns p))
          (library_paths (Called.by_monitor_notebook
                          ++ Called.by_nat_grads_notebook)) = true /\
  map minibatch_loops_by_def notebooks
  = [[("CustomTensorBoardTask.__init__", 0%nat);
      ("CustomTensorBoardTask.run", 1%nat)];
     [("make_matern_kernel", 0%nat); ("PrintAction.__init__", 0%nat);
      ("PrintAction.run", 0%nat); ("run_adam", 0%nat);
      ("run_nat_grads_with_adam", 0%nat)]] /\
  map (fun nb => length (minibatch_loops (flat_map source nb))) notebooks
  = [1%nat; 0%nat] /\
  map iterables notebooks
  = [[call (Name "range")
        [USub (BinOp (USub (call (Name "len") [Name "Xt"])) FloorDiv
                     (Name "minibatch_size"))]];
     [PyTuple [Name "svgp"; Name "sgpr"];
      call (Name "notebook_range") [Num 1000];
      call (Name "notebook_range") [Num 1000];
      call (Name "notebook_range") [Num 1000]]].
Proof. vm_compute. repeat split. Qed.

End Classes.

(** * Further properties of the notebooks' functions *)

(** ** Which parameters the two training functions touch *)

Section Frame.

Import NatGrads NatGradsAux.

Context {V F S : Type}.
Variable adam_value : F -> S -> Model V -> pref -> V.
Variable adam_slots : F -> S -> Model V -> list pref -> S.
Variable natgrad_values :
  F -> Model V -> pref * pref * option XiTransform -> V * V.
Variable likelihood_tensor : string -> Model V -> F.
Variable format_4 : F -> string.

Local Abbreviation run_action :=
  (run_action adam_value adam_slots natgrad_values likelihood_tensor format_4).
Local Abbreviation Loop :=
  (Loop adam_value adam_slots natgrad_values likelihood_tensor format_4).
Local Abbreviation run_adam :=
  (run_adam adam_value adam_slots natgrad_values likelihood_tensor format_4).
Local Abbreviation run_nat_grads_with_adam :=
  (run_nat_grads_with_adam adam_value adam_slots natgrad_values
     likelihood_tensor format_4).
Lemma lookup_update (r r' : pref) (f : Param V -> Param V) (m : Model V) :
  lookup_param r' (update r f m)
  = if decide (r = r') then f <$> lookup_param r m else lookup_param r' m.
Proof.
  case_decide as E.
  - subst r'. destruct r; simpl; [done | done | apply lookup_alter_eq].
  - destruct r as [| | n], r' as [| | n']; simpl; try done.
    apply lookup_alter_ne. congruence.
Qed.

Lemma lookup_update_ne (r r' : pref) (f : Param V -> Param V) (m : Model V) :
  r <> r' -> lookup_param r' (update r f m) = lookup_param r' m.
Proof. intros Hne. rewrite lookup_update. by case_decide. Qed.

(** A field that [assign] does not write is the same after any update by
    [assign]. *)
Lemma field_update_assign {X : Type} (g : Param V -> X)
    (Hg : forall v p, g (assign v p) = g p) (r r' : pref) (v : V) (m : Model V) :
  g <$> lookup_param r' (update r (assign v) m) = g <$> lookup_param r' m.
Proof.
  rewrite lookup_update. case_decide as E; [subst r' | done].
  destruct (lookup_param r m); simpl; [by rewrite Hg | done].
Qed.

Lemma field_adam_step {X : Type} (g : Param V -> X)
    (Hg : forall v p, g (assign v p) = g p) lr vars (st : state V S) (r : pref) :
  g <$> lookup_param r (mdl (adam_step adam_value adam_slots lr vars st))
  = g <$> lookup_param r (mdl st).
Proof.
  unfold adam_step. simpl. generalize (mdl st) at 1 as m0. intros m0.
  induction vars as [| r' vars IH]; simpl; [done |].
  by rewrite field_update_assign.
Qed.

Lemma field_natgrad_step {X : Type} (g : Param V -> X)
    (Hg : forall v p, g (assign v p) = g p) gamma vl (st : state V S) (r : pref) :
  g <$> lookup_param r (mdl (natgrad_step natgrad_values gamma vl st))
  = g <$> lookup_param r (mdl st).
Proof.
  unfold natgrad_step. simpl. generalize (mdl st) at 1 as m0. intros m0.
  induction vl as [| [[mu sq] xi] vl IH]; simpl; [done |].
  destruct (natgrad_values _ _ _) as [vmu vsq].
  by rewrite !field_update_assign.
Qed.

Lemma field_run_action {X : Type} (g : Param V -> X)
    (Hg : forall v p, g (assign v p) = g p) a ctx (st : state V S) (r : pref) :
  g <$> lookup_param r (mdl (run_action a ctx st))
  = g <$> lookup_param r (mdl st).
Proof.
  destruct a; simpl;
    [by apply field_adam_step | by apply field_natgrad_step | done].
Qed.

(** What every action of a loop keeps, the loop keeps. *)
Lemma Loop_keeps {X : Type} (phi : state V S -> X) (actions : list (Action F)) :
  Forall (fun a => forall ctx st, phi (run_action a ctx st) = phi st) actions ->
  forall stop st, phi (Loop actions stop st) = phi st.
Proof.
  intros Hall stop. unfold NatGrads.Loop.
  generalize (Py.range stop) as its.
  induction its as [| i its IH]; intros st; simpl; [done |].
  rewrite IH. clear IH.
  revert st. induction Hall as [| a actions Ha Hall IH]; intros st; simpl;
    [done |].
  by rewrite IH, Ha.
Qed.

Lemma field_Loop {X : Type} (g : Param V -> X)
    (Hg : forall v p, g (assign v p) = g p) actions stop (st : state V S)
    (r : pref) :
  g <$> lookup_param r (mdl (Loop actions stop st))
  = g <$> lookup_param r (mdl st).
Proof.
  apply (Loop_keeps (fun st => g <$> lookup_param r (mdl st))).
  apply Forall_forall. intros a _ ctx s. by apply field_run_action.
Qed.

Lemma lookup_anchor (r : pref) (m : Model V) :
  lookup_param r (anchor m) = anchor_if_trainable <$> lookup_param r m.
Proof. destruct r; simpl; [done | done | apply lookup_fmap]. Qed.

(** A field that [anchor] does not write is the same after it. *)
Lemma field_anchor {X : Type} (g : Param V -> X)
    (Hg : forall p, g (anchor_if_trainable p) = g p) (r : pref) (m : Model V) :
  g <$> lookup_param r (anchor m) = g <$> lookup_param r m.
Proof.
  rewrite lookup_anchor. destruct (lookup_param r m); simpl; [| done].
  by rewrite Hg.
Qed.

Lemma var_value_anchor_if_trainable (p : Param V) :
  var_value (anchor_if_trainable p) = var_value p.
Proof. unfold anchor_if_trainable. by destruct (trainable p). Qed.

Lemma var_value_anchor (r : pref) (m : Model V) :
  var_value <$> lookup_param r (anchor m) = var_value <$> lookup_param r m.
Proof. apply field_anchor, var_value_anchor_if_trainable. Qed.

Lemma trainable_anchor (r : pref) (m : Model V) :
  trainable <$> lookup_param r (anchor m) = trainable <$> lookup_param r m.
Proof. apply field_anchor, trainable_anchor_if_trainable. Qed.

(** How [run_adam] ends, by the variables that are trainable when it is
    called. *)
Lemma run_adam_outcome (st : state V S) (lr : F) (iterations : Z)
    (callback : option (Action F)) :
  let vars := trainable_tensors (mdl st) in
  run_adam st lr iterations callback
  = match vars with
    | [] => Raised st
    | _ => Returned
             (anchor_state
                (Loop ([AdamAction lr vars] ++ option_list callback)
                      iterations st))
    end.
Proof.
  intros vars. unfold NatGrads.run_adam, Adam_make_optimize_action.
  fold vars. by destruct vars, callback.
Qed.

Local Abbreviation run_nat_grads_with_adam_outcome :=
  (run_nat_grads_with_adam_outcome adam_value adam_slots natgrad_values
     likelihood_tensor format_4).

(** X1: [run_adam], with no callback or with a [PrintAction], leaves the
    trainable flag of every parameter as it finds it;
    [run_nat_grads_with_adam] changes the flags of [q_mu] and [q_sqrt]
    only, every hyperparameter keeps its own; and this whether the call
    returns or the library raises. *)
Theorem trainable_flags_after_training
    (st : state V S) (lr gamma : F) (iterations : Z)
    (var_list : option (list (pref * pref * option XiTransform)))
    (cb : option PrintAction) :
  (forall r,
     trainable <$> lookup_param r
                     (mdl (final (run_adam st lr iterations (PrintStep <$> cb))))
     = trainable <$> lookup_param r (mdl st)) /\
  (forall n,
     trainable <$> lookup_param (Hyper n)
                     (mdl (final (run_nat_grads_with_adam
                                    st lr gamma iterations var_list
                                    (PrintStep <$> cb))))
     = trainable <$> lookup_param (Hyper n) (mdl st)).
Proof.
  split.
  - intros r. rewrite run_adam_outcome.
    destruct (trainable_tensors (mdl st)); simpl; [done |].
    rewrite trainable_anchor. by apply field_Loop.
  - intros n. rewrite run_nat_grads_with_adam_outcome.
    destruct (trainable_tensors (freeze_variational (mdl st))); simpl mdl;
      [done |].
    rewrite trainable_anchor. by rewrite (field_Loop trainable).
Qed.

Lemma elem_of_trainable_tensors (r : pref) (m : Model V) :
  r ∈ trainable_tensors m <-> trainable <$> lookup_param r m = Some true.
Proof.
  unfold trainable_tensors. rewrite !elem_of_app.
  destruct r as [| | n]; simpl.
  - split.
    + intros [H | [H | H]].
      * destruct (trainable (q_mu m)); [done | by apply elem_of_nil in H].
      * destruct (trainable (q_sqrt m)); [| by apply elem_of_nil in H].
        apply list_elem_of_singleton in H. discriminate.
      * apply list_elem_of_fmap in H as (x & Hx & _). discriminate.
    + intros [= ->]. left. by apply list_elem_of_singleton.
  - split.
    + intros [H | [H | H]].
      * destruct (trainable (q_mu m)); [| by apply elem_of_nil in H].
        apply list_elem_of_singleton in H. discriminate.
      * destruct (trainable (q_sqrt m)); [done | by apply elem_of_nil in H].
      * apply list_elem_of_fmap in H as (x & Hx & _). discriminate.
    + intros [= ->]. right. left. by apply list_elem_of_singleton.
  - split.
    + intros [H | [H | H]].
      * destruct (trainable (q_mu m)); [| by apply elem_of_nil in H].
        apply list_elem_of_singleton in H. discriminate.
      * destruct (trainable (q_sqrt m)); [| by apply elem_of_nil in H].
        apply list_elem_of_singleton in H. discriminate.
      * apply list_elem_of_fmap in H as (x & [= <-] & Hx).
        apply list_elem_of_fmap in Hx as ([k p] & -> & Hkp).
        apply elem_of_map_to_list, map_lookup_filter_Some in Hkp as [Hk Hp].
        simpl in *. rewrite Hk. simpl. by rewrite Hp.
    + intros H. right. right.
      destruct (hyper m !! n) as [p |] eqn:Hn; simpl in H; [| done].
      injection H as Hp.
      apply list_elem_of_fmap. exists n. split; [done |].
      apply list_elem_of_fmap. exists (n, p). split; [done |].
      apply elem_of_map_to_list, map_lookup_filter_Some. by split.
Qed.

Lemma lookup_foldr_update (f : pref -> Param V -> Param V) vars (m : Model V)
    (r : pref) :
  r ∉ vars ->
  lookup_param r (foldr (fun r m => update r (f r) m) m vars) = lookup_param r m.
Proof.
  induction vars as [| r' vars IH]; simpl; [done |].
  intros [Hr Hin]%not_elem_of_cons.
  rewrite lookup_update_ne by done. auto.
Qed.

Lemma lookup_adam_step lr vars (st : state V S) (r : pref) :
  r ∉ vars ->
  lookup_param r (mdl (adam_step adam_value adam_slots lr vars st))
  = lookup_param r (mdl st).
Proof. intros Hr. by apply lookup_foldr_update. Qed.

Lemma lookup_natgrad_step gamma vl (st : state V S) (r : pref) :
  r ∉ targets vl ->
  lookup_param r (mdl (natgrad_step natgrad_values gamma vl st))
  = lookup_param r (mdl st).
Proof.
  unfold natgrad_step. simpl. generalize (mdl st) at 1 as m0. intros m0.
  induction vl as [| [[mu sq] xi] vl IH]; simpl; [done |].
  intros [Hmu [Hsq Hin]%not_elem_of_cons]%not_elem_of_cons.
  destruct (natgrad_values _ _ _) as [vmu vsq].
  rewrite !lookup_update_ne by done. auto.
Qed.

Lemma var_value_freeze (r : pref) (m : Model V) :
  var_value <$> lookup_param r (freeze_variational m)
  = var_value <$> lookup_param r m.
Proof. by destruct r. Qed.

Lemma not_trainable_freeze (r : pref) (m : Model V) :
  r = Q_mu \/ r = Q_sqrt \/ trainable <$> lookup_param r m <> Some true ->
  r ∉ trainable_tensors (freeze_variational m).
Proof.
  rewrite elem_of_trainable_tensors.
  intros [-> | [-> | H]]; [done | done |].
  destruct r; [done | done | exact H].
Qed.

Lemma value_run_adam (st : state V S) (lr : F) (iterations : Z)
    (cb : option PrintAction) (r : pref) :
  trainable <$> lookup_param r (mdl st) <> Some true ->
  var_value <$> lookup_param r
                  (mdl (final (run_adam st lr iterations (PrintStep <$> cb))))
  = var_value <$> lookup_param r (mdl st).
Proof.
  intros Hr. rewrite <- elem_of_trainable_tensors in Hr.
  rewrite run_adam_outcome.
  destruct (trainable_tensors (mdl st)) as [| v vars] eqn:E; simpl; [done |].
  rewrite var_value_anchor. f_equal.
  apply (Loop_keeps (fun st => lookup_param r (mdl st))).
  destruct cb; simpl; repeat constructor;
    intros ctx s; by apply lookup_adam_step.
Qed.

(** X2: [run_adam], with no callback or with a [PrintAction], leaves the
    value of every parameter that is not trainable when it is called as it
    is; Adam moves trainable parameters only. *)
Theorem run_adam_moves_trainable_parameters_only
    (st : state V S) (lr : F) (iterations : Z) (cb : option PrintAction)
    (r : pref) :
  trainable <$> lookup_param r (mdl st) <> Some true ->
  var_value <$> lookup_param r
                  (mdl (final (run_adam st lr iterations (PrintStep <$> cb))))
  = var_value <$> lookup_param r (mdl st).
Proof. apply value_run_adam. Qed.

(** X3: [run_nat_grads_with_adam], with no callback or with a
    [PrintAction], leaves the value of a parameter as it is when the
    parameter is not named in the [var_list] in force (the default
    [(q_mu, q_sqrt)] or the caller's) and is [q_mu], [q_sqrt] or not
    trainable: frozen for Adam and not handed to the natural-gradient
    optimiser, it is updated by neither. *)
Theorem run_nat_grads_with_adam_moves_listed_or_trainable_only
    (st : state V S) (lr gamma : F) (iterations : Z)
    (var_list : option (list (pref * pref * option XiTransform)))
    (cb : option PrintAction) (r : pref) :
  r ∉ targets (default [(Q_mu, Q_sqrt, None)] var_list) ->
  r = Q_mu \/ r = Q_sqrt \/ trainable <$> lookup_param r (mdl st) <> Some true ->
  var_value <$> lookup_param r
                  (mdl (final (run_nat_grads_with_adam
                                 st lr gamma iterations var_list
                                 (PrintStep <$> cb))))
  = var_value <$> lookup_param r (mdl st).
Proof.
  intros Hlist Hfrozen. apply not_trainable_freeze in Hfrozen.
  rewrite run_nat_grads_with_adam_outcome.
  rewrite <- (var_value_freeze r (mdl st)).
  destruct (trainable_tensors (freeze_variational (mdl st)))
    as [| v vars] eqn:E; simpl mdl; [done |].
  rewrite var_value_anchor. f_equal.
  transitivity (lookup_param r (mdl (with_model st (freeze_variational (mdl st)))));
    [| done].
  apply (Loop_keeps (fun st => lookup_param r (mdl st))).
  destruct var_list as [vl |], cb as [pa |]; simpl; repeat constructor;
    intros ctx s;
    first [by apply lookup_adam_step | by apply lookup_natgrad_step].
Qed.

(** The two optimisers' actions print nothing. *)
Lemma stdout_actions (opts : list (Action F)) ctx (st : state V S) :
  Forall (fun a => forall ctx st, stdout (run_action a ctx st) = stdout st) opts ->
  stdout (foldl (fun st a => run_action a ctx st) st opts) = stdout st.
Proof.
  intros Hall. revert st.
  induction Hall as [| a opts Ha Hall IH]; intros st; simpl; [done |].
  by rewrite IH, Ha.
Qed.

Local Abbreviation adam_step := (adam_step adam_value adam_slots).
Local Abbreviation natgrad_step := (natgrad_step natgrad_values).

Lemma range_S (k : nat) :
  Py.range (Z.of_nat (Datatypes.S k)) = Py.range (Z.of_nat k) ++ [Z.of_nat k].
Proof.
  unfold Py.range. rewrite !Nat2Z.id, seq_S, map_app. reflexivity.
Qed.

Lemma Loop_S (actions : list (Action F)) (k : nat) (st : state V S) :
  Loop actions (Z.of_nat (Datatypes.S k)) st
  = foldl (fun st a => run_action a {| iteration := Z.of_nat k |} st)
          (Loop actions (Z.of_nat k) st) actions.
Proof. unfold NatGrads.Loop. by rewrite range_S, foldl_app. Qed.

Lemma range_nonpos (n : Z) : n <= 0 -> Py.range n = [].
Proof.
  intros Hn. unfold Py.range. by replace (Z.to_nat n) with 0%nat by lia.
Qed.

(** In a loop of optimiser actions that print nothing, followed by a
    [PrintAction], the output grows by one line per iteration, and the line
    of iteration [i] gives the likelihood of the model as the optimiser
    actions of iteration [i] have left it. *)
Lemma Loop_prints (opts : list (Action F)) (pa : PrintAction)
    (n : Z) (st : state V S) :
  Forall (fun a => forall ctx st, stdout (run_action a ctx st) = stdout st) opts ->
  stdout (Loop (opts ++ [PrintStep pa]) n st)
  = stdout st
    ++ map (fun i =>
              (text pa ++ ": iteration " ++ pretty i ++ " likelihood "
               ++ format_4
                    (likelihood_tensor (model pa)
                       (mdl (foldl (fun st a => run_action a {| iteration := i |} st)
                                   (Loop (opts ++ [PrintStep pa]) i st) opts))))%string)
           (Py.range n).
Proof.
  intros Hopts.
  destruct (Z.le_gt_cases n 0) as [Hn | Hn].
  { unfold NatGrads.Loop at 1. rewrite (range_nonpos n Hn). simpl.
    by rewrite app_nil_r. }
  rewrite <- (Z2Nat.id n) by lia.
  induction (Z.to_nat n) as [| k IH].
  - unfold NatGrads.Loop at 1. simpl. by rewrite app_nil_r.
  - rewrite Loop_S, foldl_app, range_S, map_app, app_assoc, <- IH. simpl.
    by rewrite stdout_actions.
Qed.

(** X4: with a [PrintAction] as callback, [run_adam] and
    [run_nat_grads_with_adam], when the library does not raise, add one
    line per iteration to the output, numbered [0, 1, ..., iterations - 1]
    in this order, each with the text of the action and with the likelihood
    of the model as the optimiser steps of that iteration have left it (the
    callback runs after them); when the library raises, and without a
    callback, they print nothing. *)
Theorem callback_prints_once_per_iteration
    (st : state V S) (lr gamma : F) (iterations : Z)
    (var_list : option (list (pref * pref * option XiTransform)))
    (pa : PrintAction) :
  let line := fun (i : Z) (m : Model V) =>
    (text pa ++ ": iteration " ++ pretty i ++ " likelihood "
     ++ format_4 (likelihood_tensor (model pa) m))%string in
  let cb := PrintStep pa in
  let vars := trainable_tensors (mdl st) in
  let adam := AdamAction lr vars in
  let m' := freeze_variational (mdl st) in
  let vars' := trainable_tensors m' in
  let adam' := AdamAction lr vars' in
  let vl := default [(Q_mu, Q_sqrt, None)] var_list in
  let natgrad := NatGradAction gamma vl in
  stdout (final (run_adam st lr iterations (Some cb)))
  = stdout st
    ++ match vars with
       | [] => []
       | _ => map (fun i =>
                     line i (mdl (adam_step lr vars (Loop [adam; cb] i st))))
                  (Py.range iterations)
       end /\
  stdout (final (run_nat_grads_with_adam st lr gamma iterations var_list
                                         (Some cb)))
  = stdout st
    ++ match vars' with
       | [] => []
       | _ => map (fun i =>
                     line i (mdl (natgrad_step gamma vl
                                    (adam_step lr vars'
                                       (Loop [adam'; natgrad; cb] i
                                             (with_model st m'))))))
                  (Py.range iterations)
       end /\
  stdout (final (run_adam st lr iterations None)) = stdout st /\
  stdout (final (run_nat_grads_with_adam st lr gamma iterations var_list None))
  = stdout st.
Proof.
  intros line cb vars adam m' vars' adam' vl natgrad.
  subst line cb adam adam' natgrad.
  split; [| split; [| split]].
  - pose proof (Loop_prints [AdamAction lr vars] pa iterations st) as HL.
    rewrite run_adam_outcome. fold vars. clearbody vars.
    destruct vars as [| v vs]; simpl; [by rewrite app_nil_r |].
    apply HL. by repeat constructor.
  - pose proof (Loop_prints [AdamAction lr vars'; NatGradAction gamma vl] pa
                  iterations (with_model st m')) as HL.
    rewrite run_nat_grads_with_adam_outcome. fold m'. fold vars'. fold vl.
    clearbody vars'.
    destruct vars' as [| v vs]; simpl; [by rewrite app_nil_r |].
    apply HL. by repeat constructor.
  - rewrite run_adam_outcome.
    destruct (trainable_tensors (mdl st)); simpl; [done |].
    apply (Loop_keeps (@stdout V S)). by repeat constructor.
  - rewrite run_nat_grads_with_adam_outcome.
    destruct (trainable_tensors (freeze_variational (mdl st))); simpl; [done |].
    rewrite (Loop_keeps (@stdout V S)); [done |]. by repeat constructor.
Qed.

(** X5: with no iteration to run ([iterations <= 0]) no variable is
    assigned and nothing is printed: [run_adam] raises, with the model as it
    is, when no parameter is trainable, and only anchors the model
    otherwise; [run_nat_grads_with_adam] still switches off the trainable
    flags of [q_mu] and [q_sqrt] first, and then raises when no
    hyperparameter is trainable, and only anchors otherwise. *)
Theorem no_iterations_no_steps
    (st : state V S) (lr gamma : F) (iterations : Z)
    (var_list : option (list (pref * pref * option XiTransform)))
    (callback : option (Action F)) :
  iterations <= 0 ->
  let m := freeze_variational (mdl st) in
  run_adam st lr iterations callback
  = match trainable_tensors (mdl st) with
    | [] => Raised st
    | _ => Returned (anchor_state st)
    end /\
  run_nat_grads_with_adam st lr gamma iterations var_list callback
  = match trainable_tensors m with
    | [] => Raised (with_model st m)
    | _ => Returned (anchor_state (with_model st m))
    end /\
  variational_flags
    (mdl (final (run_nat_grads_with_adam st lr gamma iterations var_list
                                         callback)))
  = (false, false).
Proof.
  intros Hn m.
  rewrite run_adam_outcome, run_nat_grads_with_adam_outcome. fold m.
  unfold NatGrads.Loop. rewrite (range_nonpos iterations Hn). simpl.
  split; [by destruct (trainable_tensors (mdl st)) |].
  split; [by destruct (trainable_tensors m) |].
  destruct (trainable_tensors m); simpl; [reflexivity |].
  by rewrite flags_anchor.
Qed.

(** The value a parameter object holds is written by [anchor] only. *)
Lemma anchored_assign (v : V) (p : Param V) : anchored (assign v p) = anchored p.
Proof. reflexivity. Qed.

(** X6: [run_nat_grads_with_adam], with no callback or with a
    [PrintAction], leaves the values the objects [model.q_mu] and
    [model.q_sqrt] hold as they were before the call, whatever the steps
    have done to their variables: the closing [model.anchor] passes over
    them, the function having made them not trainable; and when the function
    returns, every trainable hyperparameter holds the value of its
    variable. *)
Theorem anchor_passes_over_variational_parameters
    (st : state V S) (lr gamma : F) (iterations : Z)
    (var_list : option (list (pref * pref * option XiTransform)))
    (cb : option PrintAction) :
  let out := run_nat_grads_with_adam st lr gamma iterations var_list
                                     (PrintStep <$> cb) in
  anchored (q_mu (mdl (final out))) = anchored (q_mu (mdl st)) /\
  anchored (q_sqrt (mdl (final out))) = anchored (q_sqrt (mdl st)) /\
  (forall st' n p,
     out = Returned st' ->
     hyper (mdl st') !! n = Some p ->
     trainable p = true ->
     anchored p = var_value p).
Proof.
  intros out.
  assert (Hfr : forall r, r = Q_mu \/ r = Q_sqrt ->
            anchored <$> lookup_param r (mdl (final out))
            = anchored <$> lookup_param r (mdl st)).
  { intros r Hr. unfold out. rewrite run_nat_grads_with_adam_outcome.
    destruct (trainable_tensors (freeze_variational (mdl st))); simpl mdl.
    - by destruct Hr as [-> | ->].
    - rewrite lookup_anchor.
      pose proof (field_Loop trainable (fun _ _ => eq_refl)
                    ([AdamAction lr (p :: l);
                      NatGradAction gamma (default [(Q_mu, Q_sqrt, None)] var_list)]
                     ++ option_list (PrintStep <$> cb)) iterations
                    (with_model st (freeze_variational (mdl st))) r) as Ht.
      pose proof (field_Loop anchored anchored_assign
                    ([AdamAction lr (p :: l);
                      NatGradAction gamma (default [(Q_mu, Q_sqrt, None)] var_list)]
                     ++ option_list (PrintStep <$> cb)) iterations
                    (with_model st (freeze_variational (mdl st))) r) as Ha.
      destruct Hr as [-> | ->]; simpl in Ht, Ha |- *;
        injection Ht as Ht; injection Ha as Ha;
        unfold anchor_if_trainable; by rewrite Ht, Ha. }
  split; [| split].
  - pose proof (Hfr Q_mu (or_introl eq_refl)) as H. by injection H.
  - pose proof (Hfr Q_sqrt (or_intror eq_refl)) as H. by injection H.
  - intros st' n p Hout Hn Hp. unfold out in Hout.
    rewrite run_nat_grads_with_adam_outcome in Hout.
    destruct (trainable_tensors (freeze_variational (mdl st))); [done |].
    injection Hout as <-. simpl in Hn.
    apply lookup_fmap_Some in Hn as (q & <- & _).
    unfold anchor_if_trainable in *.
    destruct (trainable q) eqn:Eq; [reflexivity | congruence].
Qed.

(** X7: the freeze of [run_nat_grads_with_adam] outlives the call: a
    [run_adam] on the model afterwards, with no callback or with a
    [PrintAction], leaves the values of [q_mu] and [q_sqrt] where the first
    call left them. *)
Theorem run_adam_after_nat_grads_keeps_variational
    (st : state V S) (lr gamma lr' : F) (iterations iterations' : Z)
    (var_list : option (list (pref * pref * option XiTransform)))
    (callback : option (Action F)) (cb : option PrintAction) :
  let st1 :=
    final (run_nat_grads_with_adam st lr gamma iterations var_list callback) in
  let st2 := final (run_adam st1 lr' iterations' (PrintStep <$> cb)) in
  var_value (q_mu (mdl st2)) = var_value (q_mu (mdl st1)) /\
  var_value (q_sqrt (mdl st2)) = var_value (q_sqrt (mdl st1)).
Proof.
  intros st1 st2.
  assert (Hfl : forall r, r = Q_mu \/ r = Q_sqrt ->
            trainable <$> lookup_param r (mdl st1) <> Some true).
  { intros r Hr. unfold st1. rewrite run_nat_grads_with_adam_outcome.
    destruct (trainable_tensors (freeze_variational (mdl st))); simpl mdl.
    - by destruct Hr as [-> | ->].
    - rewrite trainable_anchor, (field_Loop trainable) by done.
      by destruct Hr as [-> | ->]. }
  split.
  - pose proof (value_run_adam st1 lr' iterations' cb Q_mu
                  (Hfl Q_mu (or_introl eq_refl))) as H.
    by injection H.
  - pose proof (value_run_adam st1 lr' iterations' cb Q_sqrt
                  (Hfl Q_sqrt (or_intror eq_refl))) as H.
    by injection H.
Qed.

(** X12: the Adam action that [run_nat_grads_with_adam] builds, after the
    two [set_trainable(False)] calls, minimises over exactly the
    hyperparameters that are trainable, so these are still optimised; the
    one [run_adam] builds minimises over every trainable parameter, [q_mu]
    and [q_sqrt] included when they are trainable; and when there is no
    such variable the library raises and no loop is run. *)
Theorem adam_variables
    (st : state V S) (lr gamma : F) (iterations : Z)
    (var_list : option (list (pref * pref * option XiTransform))) :
  (exists vars,
     run_nat_grads_with_adam st lr gamma iterations var_list None
     = match vars with
       | [] => Raised (with_model st (freeze_variational (mdl st)))
       | _ =>
           Returned
             (anchor_state
                (Loop [AdamAction lr vars;
                       NatGradAction gamma
                         (default [(Q_mu, Q_sqrt, None)] var_list)]
                      iterations
                      (with_model st (freeze_variational (mdl st)))))
       end
     /\ forall r, r ∈ vars <->
          exists n, r = Hyper n
                    /\ trainable <$> hyper (mdl st) !! n = Some true) /\
  (exists vars,
     run_adam st lr iterations None
     = match vars with
       | [] => Raised st
       | _ => Returned (anchor_state (Loop [AdamAction lr vars] iterations st))
       end
     /\ forall r, r ∈ vars <->
          trainable <$> lookup_param r (mdl st) = Some true).
Proof.
  split.
  - exists (trainable_tensors (freeze_variational (mdl st))). split.
    + apply run_nat_grads_with_adam_outcome.
    + intros r. rewrite elem_of_trainable_tensors. split.
      * destruct r as [| | n]; [done | done |]. intros H. by exists n.
      * by intros (n & -> & H).
  - exists (trainable_tensors (mdl st)). split.
    + apply run_adam_outcome.
    + intros r. apply elem_of_trainable_tensors.
Qed.

End Frame.

(** ** The custom task on its test set *)

Section TaskProps.

Context {Feat Pred F Model Writer Names : Type}.
Variable unique_name : string -> Names -> string * Names.
Variable predict_y : Model -> list Feat -> list Pred * list Pred.
Variable row_sub : Pred -> Pred -> Pred.
Variable np_pow : list Pred -> F -> list Pred.
Variable np_mean : list Pred -> F.
Variable f_pow : F -> F -> F.
Variables (f_two f_half f_zero : F).

Local Abbreviation init := (Monitor.init unique_name).
Local Abbreviation run :=
  (Monitor.run predict_y row_sub np_pow np_mean f_pow f_two f_half f_zero).
Local Abbreviation test_err :=
  (Monitor.test_err row_sub np_pow np_mean f_pow f_two f_half).
Local Abbreviation run_of_init :=
  (run_of_init unique_name predict_y row_sub np_pow np_mean f_pow
     f_two f_half f_zero).

Lemma preds_is_Some (glb : Monitor.globals Feat Pred)
    (self : Monitor.CustomTensorBoardTask Feat Pred Model Writer) :
  is_Some (Monitor.preds predict_y glb self) <-> Monitor.g_Xt glb <> [].
Proof.
  unfold Monitor.preds, Monitor.pred_blocks.
  destruct (num_minibatches_ceil (Monitor.g_Xt glb)) as [Hq Hb].
  unfold Py.range.
  destruct (Monitor.g_Xt glb) as [| x xt].
  - change (Monitor.num_minibatches (@nil Feat)) with 0.
    simpl. split; [by intros [? ?] | done].
  - destruct (Z.to_nat (Monitor.num_minibatches (x :: xt))) as [| k] eqn:Ek.
    { unfold Py.len in Hb. cbn [length] in Hb. lia. }
    simpl. split; [done | by eexists].
Qed.




(** X9: row [j] of minibatch [mb] is row [100 * mb + j] of the test array,
    for [j] below 100, and a minibatch has no row from 100 on: rows keep
    their order and are not repeated across minibatches. *)
Theorem minibatch_rows (xt : list Feat) (mb j : nat) :
  Monitor.minibatch xt (Z.of_nat mb) !! j
  = if decide (j < 100)%nat then xt !! (mb * 100 + j)%nat else None.
Proof.
  rewrite minibatch_take_drop. case_decide as Hj.
  - by rewrite lookup_take_lt, lookup_drop.
  - apply lookup_take_ge. lia.
Qed.

Lemma concat_map_hom (f : list Feat -> list Pred) (chunks : list (list Feat)) :
  (forall a b, f (a ++ b) = f a ++ f b) ->
  concat (map f chunks) = f (concat chunks).
Proof.
  intros Hf.
  assert (Hnil : f [] = []).
  { pose proof (Hf [] []) as H. simpl in H.
    apply (f_equal length) in H. rewrite length_app in H.
    destruct (f []); [done | simpl in H; lia]. }
  induction chunks as [| c chunks IH]; simpl; [done |].
  by rewrite IH, Hf.
Qed.

Lemma preds_full (glb : Monitor.globals Feat Pred)
    (self : Monitor.CustomTensorBoardTask Feat Pred Model Writer) :
  (forall a b, fst (predict_y (Monitor.model self) (a ++ b))
               = fst (predict_y (Monitor.model self) a)
                 ++ fst (predict_y (Monitor.model self) b)) ->
  Monitor.g_Xt glb <> [] ->
  Monitor.preds predict_y glb self
  = Some (fst (predict_y (Monitor.model self) (Monitor.g_Xt glb))).
Proof.
  intros Hhom Hne.
  pose proof (proj2 (preds_is_Some glb self) Hne) as Hsome.
  unfold Monitor.preds, Monitor.pred_blocks in *.
  rewrite <- (map_map (Monitor.minibatch (Monitor.g_Xt glb))
                      (fun x => fst (predict_y (Monitor.model self) x))) in *.
  destruct (map (fun x => fst (predict_y (Monitor.model self) x)) _)
    as [| b bs] eqn:Eb; [by destruct Hsome |].
  unfold Py.vstack. f_equal. rewrite <- Eb.
  rewrite (concat_map_hom (fun x => fst (predict_y (Monitor.model self) x)))
    by exact Hhom.
  by rewrite minibatches_concat.
Qed.

(** X10: when the model predicts row by row (the mean of a concatenation is
    the concatenation of the means), predicting the non-empty test array in
    minibatches of 100 and stacking gives the prediction of the whole array
    at once, so the values [run] logs are the error of the full test set and
    a zero, and [run] fails exactly when that error cannot be computed. *)
Theorem minibatched_predictions_are_the_full_predictions
    (glb : Monitor.globals Feat Pred) (fw : Writer) (m : Model)
    (xt : list Feat) (yt : list Pred) (g : Monitor.graph Names)
    (ctx : Monitor.MonitorContext) :
  (forall a b, fst (predict_y m (a ++ b))
               = fst (predict_y m a) ++ fst (predict_y m b)) ->
  Monitor.g_Xt glb <> [] ->
  let self := fst (init fw m xt yt g) in
  let full := fst (predict_y m (Monitor.g_Xt glb)) in
  Monitor.preds predict_y glb self = Some full /\
  (fun ev => map snd (Monitor.ev_values ev)) <$> run glb self ctx
  = (fun e => [e; f_zero]) <$> test_err glb full.
Proof.
  intros Hhom Hne self full.
  assert (Hm : Monitor.model self = m).
  { unfold self.
    by destruct (init_shape unique_name fw m xt yt g) as (a1 & a2 & ->). }
  assert (Hp : Monitor.preds predict_y glb self = Some full).
  { rewrite preds_full; [by rewrite Hm | by rewrite Hm | done]. }
  split; [exact Hp |].
  unfold Monitor.run. rewrite Hp. simpl.
  destruct (test_err glb full) as [e |]; simpl; [| done].
  unfold self.
  destruct (init_shape unique_name fw m xt yt g) as (t1 & t2 & ->).
  unfold Monitor._eval_summary, Monitor.feed_lookup. simpl.
  set (node := Monitor.next_node g).
  assert (Hn : (node =? Datatypes.S node)%nat = false)
    by (apply Nat.eqb_neq; lia).
  by rewrite (Nat.eqb_refl node), Hn.
Qed.

(** X11: the values of an event that [run] logs on an instance built by
    [__init__] carry the tags the graph has given to the two scalar
    summaries when it was asked for the names [test_rmse] and [test_nlpp],
    after the two placeholders, in this order. *)
Theorem logged_tags
    (glb : Monitor.globals Feat Pred) (fw : Writer) (m : Model)
    (xt : list Feat) (yt : list Pred) (g : Monitor.graph Names)
    (ctx : Monitor.MonitorContext) (ev : Monitor.event F Writer) :
  let self := fst (init fw m xt yt g) in
  let ns1 := snd (unique_name "Placeholder" (Monitor.names g)) in
  let ns2 := snd (unique_name "Placeholder" ns1) in
  let rmse := unique_name "test_rmse" ns2 in
  let nlpp := unique_name "test_nlpp" (snd rmse) in
  run glb self ctx = Some ev ->
  map fst (Monitor.ev_values ev) = [fst rmse; fst nlpp] /\
  map fst (Monitor.ev_values ev) = map fst (Monitor._summary self).
Proof.
  intros self ns1 ns2 rmse nlpp.
  assert (Hs : map fst (Monitor._summary self) = [fst rmse; fst nlpp]).
  { unfold self, rmse, nlpp, ns2, ns1, Monitor.init, Monitor.tf_placeholder,
      Monitor.tf_summary_scalar, Monitor.tf_summary_merge, Monitor.new_op.
    repeat (destruct (unique_name _ _); simpl). reflexivity. }
  rewrite Hs.
  destruct (run_of_init fw m xt yt g) as (t1 & t2 & Htags & Hrun).
  fold self in Htags. rewrite Hs in Htags. injection Htags as <- <-.
  unfold self. rewrite Hrun.
  destruct (Py.vstack _) as [p |]; simpl; [| done].
  destruct (test_err glb p) as [e |]; simpl; [| done].
  by intros [= <-].
Qed.

End TaskProps.

(** ** A run of [run_nat_grads_with_adam] *)

Section NatGradsExample.

Import NatGrads NatGradsExample.
Local Open Scope string_scope.

(** Three iterations on the example model: the variables of [q_mu] and
    [q_sqrt] are moved by the natural-gradient step, the objects still hold
    the values from before the call, and the hyperparameter is moved by Adam
    and anchored. *)
Example example_run_values :
  map (fun r => example_value r (mdl (example_run None)))
      [Q_mu; Q_sqrt; Hyper "lengthscales"] = [10; 20; 8] /\
  variational_flags (mdl (example_run None)) = (false, false) /\
  anchored (q_mu (mdl (example_run None))) = 0 /\
  anchored <$> hyper (mdl (example_run None)) !! "lengthscales" = Some 8 /\
  stdout (example_run None)
  = ["VGP: iteration 0 likelihood 0.0000";
     "VGP: iteration 1 likelihood 0.0000";
     "VGP: iteration 2 likelihood 0.0000"] /\
  variational_flags (mdl (example_run (Some []))) = (false, false) /\
  map (fun r => example_value r (mdl (example_run (Some []))))
      [Q_mu; Q_sqrt; Hyper "lengthscales"] = [0; 0; 8].
Proof. vm_compute. repeat split. Qed.

(** On the instances the likelihood is the value of [q_mu]: the line of an
    iteration shows it as the steps of that iteration have left it. *)
Example example_lines :
  stdout (final (Instances.run_nat_grads_on Instances.start 2 None
                   (Some (PrintStep {| model := "vgp"; text := "VGP" |}))))
  = ["VGP: iteration 0 likelihood 10"; "VGP: iteration 1 likelihood 20"] /\
  stdout (final (Instances.run_adam_on Instances.start 2
                   (Some (PrintStep {| model := "gpr"; text := "GPR" |}))))
  = ["GPR: iteration 0 likelihood 1"; "GPR: iteration 1 likelihood 2"].
Proof. vm_compute. split; reflexivity. Qed.

End NatGradsExample.

(** ** The further properties on the instances *)

Section Witnesses.

Import NatGrads NatGradsAux Instances.
Local Open Scope string_scope.

(** Three Adam steps leave the fixed variance at 1. *)
Lemma run_adam_moves_trainable_parameters_only_witness :
  var_value <$> lookup_param (Hyper "variance")
                  (mdl (final (run_adam_on start 3 None)))
  = Some 1.
Proof.
  assert (H : trainable <$> lookup_param (Hyper "variance") (mdl start)
              <> Some true) by (vm_compute; discriminate).
  exact (run_adam_moves_trainable_parameters_only
           adam_value adam_slots natgrad_values likelihood_tensor format_4
           start 1 3 None (Hyper "variance") H).
Defined.

(** With an empty [var_list] no step moves [q_mu]. *)
Lemma run_nat_grads_with_adam_moves_listed_or_trainable_only_witness :
  var_value <$> lookup_param Q_mu
                  (mdl (final (run_nat_grads_on start 3 (Some []) None)))
  = Some 0.
Proof.
  assert (H1 : Q_mu ∉ targets (default [(Q_mu, Q_sqrt, None)] (Some [])))
    by apply not_elem_of_nil.
  assert (H2 : Q_mu = Q_mu \/ Q_mu = Q_sqrt
               \/ trainable <$> lookup_param Q_mu (mdl start) <> Some true)
    by (left; reflexivity).
  exact (run_nat_grads_with_adam_moves_listed_or_trainable_only
           adam_value adam_slots natgrad_values likelihood_tensor format_4
           start 1 10 3 (Some []) None Q_mu H1 H2).
Defined.

(** With zero iterations: on the model with a trainable hyperparameter both
    functions return, the flags switched off by the second; on the model
    with nothing trainable both raise. *)
Lemma no_iterations_no_steps_witness :
  (run_adam_on start 0 None = Returned (anchor_state start) /\
   variational_flags (mdl (final (run_nat_grads_on start 0 None None)))
   = (false, false)) /\
  (run_adam_on fixed 0 None = Raised fixed /\
   run_nat_grads_on fixed 0 None None
   = Raised (with_model fixed (freeze_variational (mdl fixed)))).
Proof.
  assert (H : 0 <= 0) by lia.
  split.
  - destruct (no_iterations_no_steps
                adam_value adam_slots natgrad_values likelihood_tensor format_4
                start 1 10 0 None None H) as (Ha & _ & Hf).
    split; [exact Ha | exact Hf].
  - destruct (no_iterations_no_steps
                adam_value adam_slots natgrad_values likelihood_tensor format_4
                fixed 1 10 0 None None H) as (Ha & Hn & _).
    split; [exact Ha | exact Hn].
Defined.

(** After three iterations the variable of [q_mu] is at 30 and the object
    still holds 0; the trainable lengthscales hold the value of their
    variable. *)
Lemma anchor_passes_over_variational_parameters_witness :
  let st' := final (run_nat_grads_on start 3 None None) in
  var_value (q_mu (mdl st')) = 30 /\
  anchored (q_mu (mdl st')) = 0 /\
  forall p, hyper (mdl st') !! "lengthscales" = Some p ->
            trainable p = true -> anchored p = var_value p.
Proof.
  intros st'.
  destruct (anchor_passes_over_variational_parameters
              adam_value adam_slots natgrad_values likelihood_tensor format_4
              start 1 10 3 None None) as (Hmu & _ & Hh).
  split; [reflexivity |]. split; [exact Hmu |].
  intros p. apply (Hh st' "lengthscales" p). reflexivity.
Defined.


(** The 250 rows predicted in three minibatches are the 250 predictions. *)
Lemma minibatched_predictions_are_the_full_predictions_witness :
  Monitor.preds predict_y test_globals (fst first_task) = Some (Py.range 250).
Proof.
  assert (Hhom : forall a b : list Z,
             fst (predict_y tt (a ++ b)%list)
             = (fst (predict_y tt a) ++ fst (predict_y tt b))%list)
    by reflexivity.
  assert (Hne : Monitor.g_Xt test_globals <> []) by discriminate.
  exact (proj1 (minibatched_predictions_are_the_full_predictions
                  Tf.unique_name predict_y Z.sub
                  (fun p e => map (fun x => x ^ e) p)
                  (fun p => foldr Z.add 0 p) Z.pow 2 1 0
                  test_globals tt tt [] [] Tf.empty_graph
                  {| Monitor.global_step := 0 |} Hhom Hne)).
Defined.

(** With TensorFlow's unique names the second task logs under
    [test_rmse_1] and [test_nlpp_1]. *)
Lemma logged_tags_witness :
  exists ev,
    run_on test_globals (fst second_task) {| Monitor.global_step := 7 |}
    = Some ev /\
    map fst (Monitor.ev_values ev) = ["test_rmse_1"; "test_nlpp_1"].
Proof.
  eexists. split; [vm_compute; reflexivity |].
  match goal with
  | |- map fst (Monitor.ev_values ?ev) = _ =>
      assert (Hrun : run_on test_globals (fst second_task)
                            {| Monitor.global_step := 7 |} = Some ev)
        by (vm_compute; reflexivity);
      destruct (logged_tags Tf.unique_name predict_y Z.sub
                  (fun p e => map (fun x => x ^ e) p)
                  (fun p => foldr Z.add 0 p) Z.pow 2 1 0
                  test_globals tt tt [7] [7] (snd first_task)
                  {| Monitor.global_step := 7 |} ev Hrun) as [Htags _]
  end.
  rewrite Htags. vm_compute. reflexivity.
Defined.

End Witnesses.
